(** * A shallow embedding of the semantic pattern extractor of mcp-standards

    Sources embedded:
    - src/mcp_standards/hooks/pattern_extractor_v2.py  (PatternExtractorV2)
    - src/mcp_standards/hooks/capture_hook_v2.py       (HookCaptureSystemV2)

    Python strings are modelled as ASCII strings ([String.string]); floats
    (confidences, similarities, significance scores) as rationals [Q];
    datetimes as integer microseconds [Z]. *)

From Stdlib Require Import String Ascii List Bool ZArith QArith Lia Lqa Sorted Permutation.
Import ListNotations.
Open Scope string_scope.
Set Warnings "-register-all".

(* ------------------------------------------------------------------ *)
(** ** Python string primitives *)

Module Py.
Local Open Scope nat_scope.

Definition ascii_lower (c : ascii) : ascii :=
  let n := nat_of_ascii c in
  if (65 <=? n) && (n <=? 90) then ascii_of_nat (n + 32) else c.

Definition ascii_upper (c : ascii) : ascii :=
  let n := nat_of_ascii c in
  if (97 <=? n) && (n <=? 122) then ascii_of_nat (n - 32) else c.

Fixpoint smap (f : ascii -> ascii) (s : string) : string :=
  match s with
  | EmptyString => EmptyString
  | String c s' => String (f c) (smap f s')
  end.

(** [str.lower()] / [str.upper()] *)
Definition lower (s : string) : string := smap ascii_lower s.
Definition upper (s : string) : string := smap ascii_upper s.

Fixpoint sfilter (f : ascii -> bool) (s : string) : string :=
  match s with
  | EmptyString => EmptyString
  | String c s' => if f c then String c (sfilter f s') else sfilter f s'
  end.

Fixpoint sforallb (f : ascii -> bool) (s : string) : bool :=
  match s with
  | EmptyString => true
  | String c s' => f c && sforallb f s'
  end.

(** [needle in hay] for strings *)
Fixpoint contains (needle hay : string) : bool :=
  if String.prefix needle hay then true
  else match hay with
       | EmptyString => false
       | String _ hay' => contains needle hay'
       end.

(** [s.startswith(p)] *)
Definition startswith (s p : string) : bool := String.prefix p s.

Definition is_digit (c : ascii) : bool :=
  let n := nat_of_ascii c in (48 <=? n) && (n <=? 57).
Definition is_alpha (c : ascii) : bool :=
  let n := nat_of_ascii c in
  ((65 <=? n) && (n <=? 90)) || ((97 <=? n) && (n <=? 122)).

(** [str.isspace()] on one ASCII character; also the class [\s] of [re]
    for [str] patterns. *)
Definition is_space (c : ascii) : bool :=
  let n := nat_of_ascii c in
  ((9 <=? n) && (n <=? 13)) || ((28 <=? n) && (n <=? 32)).

(** the class [\w] of [re] for [str] patterns, on ASCII *)
Definition is_word (c : ascii) : bool :=
  is_alpha c || is_digit c || Ascii.eqb c "_"%char.

(** [str.isprintable()] on one ASCII character *)
Definition is_printable (c : ascii) : bool :=
  let n := nat_of_ascii c in (32 <=? n) && (n <=? 126).

Fixpoint rev_string (s : string) : string :=
  match s with
  | EmptyString => EmptyString
  | String c s' => rev_string s' ++ String c EmptyString
  end.

Fixpoint lstrip (s : string) : string :=
  match s with
  | String c s' => if is_space c then lstrip s' else s
  | EmptyString => EmptyString
  end.

(** [str.strip()] *)
Definition strip (s : string) : string :=
  rev_string (lstrip (rev_string (lstrip s))).

(** [s[:n]] *)
Definition take (n : nat) (s : string) : string := substring 0 n s.

(** decimal rendering of a Python [int] *)
Fixpoint digits_of (fuel : nat) (n : nat) (acc : string) : string :=
  match fuel with
  | O => acc
  | S f =>
      let d := ascii_of_nat (48 + n mod 10) in
      if n <? 10 then String d acc else digits_of f (n / 10) (String d acc)
  end.

Definition str_of_Z (z : Z) : string :=
  let s := digits_of 40 (Z.to_nat (Z.abs z)) EmptyString in
  if (z <? 0)%Z then "-" ++ s else s.

Definition hex_digit (n : nat) : ascii :=
  if n <? 10 then ascii_of_nat (48 + n) else ascii_of_nat (87 + n).

(** [join(sep, xs)] *)
Fixpoint join (sep : string) (xs : list string) : string :=
  match xs with
  | [] => EmptyString
  | [x] => x
  | x :: xs' => x ++ sep ++ join sep xs'
  end.

(** [repr] of a [str]: the quote is the single quote unless the string
    holds a single quote and no double quote; backslash, the quote, tab, newline and carriage return are escaped,
    other non-printable characters become [\xhh]. *)
Definition repr_char (q : ascii) (c : ascii) : string :=
  let n := nat_of_ascii c in
  if Ascii.eqb c "\"%char then "\\"
  else if Ascii.eqb c q then String "\"%char (String q EmptyString)
  else if n =? 9 then "\t"
  else if n =? 10 then "\n"
  else if n =? 13 then "\r"
  else if is_printable c then String c EmptyString
  else String "\"%char (String "x"%char
         (String (hex_digit (n / 16)) (String (hex_digit (n mod 16)) EmptyString))).

Fixpoint repr_chars (q : ascii) (s : string) : string :=
  match s with
  | EmptyString => EmptyString
  | String c s' => repr_char q c ++ repr_chars q s'
  end.

Definition dquote : ascii := ascii_of_nat 34.
Definition squote : ascii := ascii_of_nat 39.

Definition repr_str (s : string) : string :=
  let q := if contains (String squote EmptyString) s
              && negb (contains (String dquote EmptyString) s)
           then dquote else squote in
  String q (repr_chars q s ++ String q EmptyString).

(** Python values that occur in tool events (arguments and results) *)
Inductive pyval : Type :=
| PStr (s : string)
| PInt (z : Z)
| PBool (b : bool)
| PNone
| PList (xs : list pyval)
| PDict (kvs : list (string * pyval)).

(** [repr(v)] *)
Fixpoint repr (v : pyval) : string :=
  match v with
  | PStr s => repr_str s
  | PInt z => str_of_Z z
  | PBool b => if b then "True" else "False"
  | PNone => "None"
  | PList xs => "[" ++ join ", " (map repr xs) ++ "]"
  | PDict kvs =>
      "{" ++ join ", " (map (fun kv => repr_str (fst kv) ++ ": " ++ repr (snd kv)) kvs)
      ++ "}"
  end.

(** [str(v)] *)
Definition str (v : pyval) : string :=
  match v with
  | PStr s => s
  | _ => repr v
  end.

(** a [dict] with string keys, in insertion order *)
Definition dict := list (string * pyval).

Fixpoint dict_get (d : dict) (k : string) : option pyval :=
  match d with
  | [] => None
  | (k', v) :: d' => if String.eqb k k' then Some v else dict_get d' k
  end.

(** [d.get(k, default)] *)
Definition get (d : dict) (k : string) (dflt : pyval) : pyval :=
  match dict_get d k with Some v => v | None => dflt end.

(** [str(d)] for a [dict] *)
Definition str_dict (d : dict) : string := repr (PDict d).

(** f-string rendering of an [Optional[str]] *)
Definition fmt_opt (o : option string) : string :=
  match o with Some s => s | None => "None" end.

(** truthiness of an [Optional[str]] *)
Definition truthy (o : option string) : bool :=
  match o with Some s => negb (String.eqb s EmptyString) | None => false end.

End Py.

(* ------------------------------------------------------------------ *)
(** ** The fragment of Python's [re] used by the correction templates

    Backtracking matcher in continuation-passing style, with Python's
    leftmost, greedy-first priority: [RAlt] tries its left branch first,
    [RPlus] and [ROpt] try one more iteration before giving up.  A match
    returns its end position and the capture groups (last iteration wins). *)

Module Re.
Local Open Scope nat_scope.

Inductive rx : Type :=
| RChar (f : ascii -> bool)
| RSeq (a b : rx)
| RAlt (a b : rx)
| RPlus (a : rx)
| ROpt (a : rx)
| RGroup (n : nat) (a : rx).

Definition caps := list (nat * (nat * nat)).
Definition kont := list ascii -> nat -> caps -> option (nat * caps).

(** Every [RPlus] body in the templates consumes at least one character,
    so [length s] further iterations are enough for [RPlus]. *)
Fixpoint mt (r : rx) (s : list ascii) (pos : nat) (cs : caps) (k : kont)
  {struct r} : option (nat * caps) :=
  match r with
  | RChar f =>
      match s with
      | c :: s' => if f c then k s' (S pos) cs else None
      | [] => None
      end
  | RSeq a b => mt a s pos cs (fun s1 p1 c1 => mt b s1 p1 c1 k)
  | RAlt a b =>
      match mt a s pos cs k with
      | Some x => Some x
      | None => mt b s pos cs k
      end
  | ROpt a =>
      match mt a s pos cs k with
      | Some x => Some x
      | None => k s pos cs
      end
  | RGroup n a => mt a s pos cs (fun s1 p1 c1 => k s1 p1 ((n, (pos, p1)) :: c1))
  | RPlus a =>
      (fix loop (fuel : nat) (s0 : list ascii) (p0 : nat) (c0 : caps)
         {struct fuel} : option (nat * caps) :=
         mt a s0 p0 c0 (fun s1 p1 c1 =>
           match fuel with
           | O => k s1 p1 c1
           | S fuel' =>
               match loop fuel' s1 p1 c1 with
               | Some x => Some x
               | None => k s1 p1 c1
               end
           end)) (length s) s pos cs
  end.

(** a successful match: start, end, groups *)
Record m := mkm { m_start : nat; m_end : nat; m_caps : caps }.

(** [re.match] at the head of [s], which sits at position [pos] *)
Definition match_at (r : rx) (s : list ascii) (pos : nat) : option m :=
  match mt r s pos [] (fun _ p c => Some (p, c)) with
  | Some (e, c) => Some (mkm pos e c)
  | None => None
  end.

Fixpoint search_from (r : rx) (s : list ascii) (pos : nat) : option m :=
  match match_at r s pos with
  | Some x => Some x
  | None =>
      match s with
      | [] => None
      | _ :: s' => search_from r s' (S pos)
      end
  end.

(** [re.search(r, s)] *)
Definition search (r : rx) (s : string) : option m :=
  search_from r (list_ascii_of_string s) 0.

(** [re.finditer(r, s)]: after a match ending at [e] the scan resumes at [e]
    (one further when the match was empty). *)
Fixpoint finditer_go (fuel : nat) (r : rx) (full : list ascii) (pos : nat)
  : list m :=
  match fuel with
  | O => []
  | S f =>
      match search_from r (skipn pos full) pos with
      | Some x =>
          x :: finditer_go f r full
                 (if m_end x =? m_start x then S (m_end x) else m_end x)
      | None => []
      end
  end.

Definition finditer (r : rx) (s : string) : list m :=
  let l := list_ascii_of_string s in finditer_go (S (length l)) r l 0.

(** [match.group(n)] on the searched string [s]; [group 0] is the whole match *)
Definition group (s : string) (x : m) (n : nat) : option string :=
  if n =? 0 then Some (substring (m_start x) (m_end x - m_start x) s)
  else match find (fun g => fst g =? n) (m_caps x) with
       | Some (_, (i, j)) => Some (substring i (j - i) s)
       | None => None
       end.

(** building blocks: literal text (optionally case-folded), [\s+], [\w+],
    alternation of literals, capturing [(\w+)] *)
Definition lit_char (ic : bool) (c : ascii) : rx :=
  RChar (fun d => if ic then Ascii.eqb (Py.ascii_lower d) (Py.ascii_lower c)
                  else Ascii.eqb d c).

Fixpoint lit (ic : bool) (s : string) : rx :=
  match s with
  | EmptyString => RChar (fun _ => false)
  | String c EmptyString => lit_char ic c
  | String c s' => RSeq (lit_char ic c) (lit ic s')
  end.

Fixpoint alts (ic : bool) (xs : list string) : rx :=
  match xs with
  | [] => RChar (fun _ => false)
  | [x] => lit ic x
  | x :: xs' => RAlt (lit ic x) (alts ic xs')
  end.

Definition ws : rx := RPlus (RChar Py.is_space).
Definition word (n : nat) : rx := RGroup n (RPlus (RChar Py.is_word)).

Fixpoint seqs (xs : list rx) : rx :=
  match xs with
  | [] => RChar (fun _ => false)
  | [x] => x
  | x :: xs' => RSeq x (seqs xs')
  end.

End Re.

(* ------------------------------------------------------------------ *)
(** ** PatternExtractorV2 *)

Module Extractor.
Local Open Scope nat_scope.

(** The correction templates, [CORRECTION_PATTERNS], as regular expressions;
    [ic] is the [re.IGNORECASE] flag. *)
Definition CORRECTION_PATTERNS (ic : bool) : list Re.rx :=
  let L := Re.lit ic in
  let A := Re.alts ic in
  [ Re.seqs [L "actually"; Re.ws; A ["use"; "do"; "need"; "should"]];
    Re.seqs [L "instead"; Re.ws; A ["of"; "use"]];
    Re.seqs [L "use"; Re.ws; Re.word 1; Re.ws;
             Re.RAlt (L "not") (Re.seqs [L "instead"; Re.ws; L "of"]);
             Re.ws; Re.word 2];
    Re.seqs [L "don't"; Re.ws; L "use"; Re.ws; Re.word 1];
    Re.seqs [L "should"; Re.ws; A ["use"; "be"; "have"]];
    Re.seqs [L "prefer"; Re.ws; Re.word 1; Re.ws; A ["over"; "to"]; Re.ws; Re.word 2];
    Re.seqs [A ["switch"; "change"]; Re.ws; A ["to"; "from"]; Re.ws; Re.word 1;
             Re.ROpt (Re.seqs [Re.ws; A ["from"; "to"]; Re.ws; Re.word 2])];
    Re.seqs [A ["always"; "never"]; Re.ws; L "use"; Re.ws; Re.word 1];
    Re.seqs [A ["fix"; "change"; "update"]; Re.ws; A ["to"; "from"]];
    Re.seqs [A ["correct"; "right"; "better"]; Re.ws; A ["way"; "approach"; "method"]];
    Re.seqs [Re.word 1; Re.ws;
             Re.RAlt (Re.seqs [L "instead"; Re.ws; L "of"]) (L "not");
             Re.ws; Re.word 2];
    Re.seqs [L "use"; Re.ws; Re.word 1; Re.ws; L "for"; Re.ws;
             A ["better"; "faster"; "improved"]] ].

(** the templates of the extraction cascade, searched without flags *)
Definition rx_use_not : Re.rx := nth 2 (CORRECTION_PATTERNS false) (Re.RChar (fun _ => false)).
Definition rx_prefer : Re.rx := nth 5 (CORRECTION_PATTERNS false) (Re.RChar (fun _ => false)).
Definition rx_switch_to : Re.rx :=
  Re.seqs [Re.alts false ["switch"; "change"]; Re.ws; Re.lit false "to"; Re.ws;
           Re.word 1; Re.ws; Re.lit false "from"; Re.ws; Re.word 2].
Definition rx_switch_from : Re.rx :=
  Re.seqs [Re.alts false ["switch"; "change"]; Re.ws; Re.lit false "from"; Re.ws;
           Re.word 1; Re.ws; Re.lit false "to"; Re.ws; Re.word 2].
Definition rx_always : Re.rx :=
  Re.seqs [Re.lit false "always"; Re.ws; Re.lit false "use"; Re.ws; Re.word 1].
Definition rx_never : Re.rx :=
  Re.seqs [Re.lit false "never"; Re.ws; Re.lit false "use"; Re.ws; Re.word 1].
Definition rx_use_for : Re.rx := nth 11 (CORRECTION_PATTERNS false) (Re.RChar (fun _ => false)).
Definition rx_general : Re.rx := nth 10 (CORRECTION_PATTERNS false) (Re.RChar (fun _ => false)).

(** [SEMANTIC_CATEGORIES], in dict order *)
Definition SEMANTIC_CATEGORIES : list (string * list string) :=
  [ ("package-management",
      ["pip"; "uv"; "npm"; "yarn"; "pnpm"; "conda"; "poetry";
       "package"; "dependency"; "install"; "management"]);
    ("testing",
      ["test"; "pytest"; "unittest"; "jest"; "vitest"; "spec";
       "testing"; "coverage"; "assertion"; "mock"]);
    ("version-control",
      ["git"; "commit"; "branch"; "merge"; "pull"; "push";
       "repository"; "version"; "control"; "feature"]);
    ("code-quality",
      ["lint"; "format"; "style"; "prettier"; "eslint"; "pylint";
       "quality"; "convention"; "standard"; "check"]);
    ("build-tools",
      ["build"; "compile"; "bundle"; "webpack"; "vite"; "rollup";
       "setup"; "configure"; "deploy"; "production"]);
    ("documentation",
      ["docs"; "readme"; "documentation"; "comment"; "docstring";
       "guide"; "manual"; "wiki"; "help"]) ].

Definition MAX_PATTERNS_PER_MINUTE : nat := 100.
(** [RATE_LIMIT_WINDOW_SECONDS = 60], in microseconds *)
Definition RATE_LIMIT_WINDOW : Z := (60 * 1000000)%Z.

(** [_classify_tool_category] *)
Definition classify_tool_category (tool1 tool2 : string) : string :=
  let tools := Py.lower (tool1 ++ " " ++ tool2) in
  match find (fun ck => existsb (fun kw => Py.contains kw tools) (snd ck))
              SEMANTIC_CATEGORIES with
  | Some ck => fst ck
  | None => "general"
  end.

(** the character class of [_sanitize_description] (ASCII part) *)
Definition sanitize_allowed (c : ascii) : bool :=
  Py.is_alpha c || Py.is_digit c || Py.is_space c
  || existsb (Ascii.eqb c)
       ["-"; "_"; "."; ","; ":"; Py.squote; Py.dquote; "/"; "("; ")"]%char.

(** [_sanitize_description(text, max_length=200)] *)
Definition sanitize_description (text : string) : string :=
  if String.eqb text EmptyString then EmptyString
  else
    let s1 := Py.sfilter (fun c => Py.is_printable c
                  || (nat_of_ascii c =? 10) || (nat_of_ascii c =? 9)) text in
    let s2 := Py.sfilter (fun c => negb ((nat_of_ascii c =? 13) || (nat_of_ascii c =? 0))) s1 in
    let s3 := if negb (String.eqb s2 EmptyString) && Py.sforallb sanitize_allowed s2
              then s2 else Py.sfilter sanitize_allowed s2 in
    Py.strip (Py.take 200 s3).

(** [ExtractedPattern] *)
Record pattern : Type := mkPattern {
  pattern_type : string;
  category : string;
  description : string;
  text_content : string;
  confidence : Q;
  context : Py.dict;
  tool_name : string;
  project_path : string;
  metadata : option Py.dict
}.

(** requests to the memory router *)
Record search_query : Type := mkSearch {
  q_query : string; q_top_k : nat; q_threshold : Q; q_category : option string }.

(** the [metadata] entry of a search result: a dict (also when absent) or
    some other value *)
Inductive meta : Type := MDict (d : Py.dict) | MOther (v : Py.pyval).

(** one search result of [find_similar_patterns] *)
Record neighbor : Type := mkNeighbor {
  n_pattern_id : string;
  n_pattern_text : string;
  n_similarity : Q;
  n_confidence : option Q;
  n_frequency : Z;
  n_metadata : meta }.

(** arguments of [store_pattern] ([extracted_at] left out) *)
Record store_req : Type := mkStore {
  r_pattern_text : string; r_category : string; r_context : string;
  r_confidence : Q; r_description : string; r_tool_name : string;
  r_pattern_type : string; r_pattern_context : Py.dict; r_project_path : string }.

(** arguments of [record_outcome] *)
Record outcome_req : Type := mkOutcome {
  o_pattern_id : string; o_application_context : string; o_outcome : string;
  o_confidence_before : Q; o_confidence_after : Q; o_user_feedback : string }.

(** the four extractor steps of [extract_patterns] *)
Inductive stage : Type := SCorrection | SWorkflow | SToolPreference | SContext.

(** what the extractor does, in order: router calls and extractor steps *)
Inductive call : Type :=
| CSearch (q : search_query)
| CStore (r : store_req)
| CRecord (o : outcome_req)
| CStage (s : stage).

(** Python exceptions: a failing router call, and [AttributeError] *)
Inductive exn : Type := ExService | ExAttribute.

Inductive res (A : Type) : Type := Ok (a : A) | Err (e : exn).
Arguments Ok {A} a.
Arguments Err {A} e.

Definition qlt (a b : Q) : bool := negb (Qle_bool b a).
(** Python [min(a, b)] *)
Definition qmin (a b : Q) : Q := if qlt b a then b else a.

(** The memory router ([TestMemoryRouter]) is an external service with a
    state of its own; each operation may raise ([None] / [false]). *)
Record router (Σ : Type) : Type := mkRouter {
  search_op : Σ -> search_query -> Σ * option (list neighbor);
  store_op : Σ -> store_req -> Σ * option (option string);
  record_op : Σ -> outcome_req -> Σ * bool }.
Arguments mkRouter {Σ} _ _ _.
Arguments search_op {Σ} _ _ _.
Arguments store_op {Σ} _ _ _.
Arguments record_op {Σ} _ _ _.

Section Engine.
Context {Σ : Type} (R : router Σ).

(** the extractor's state: the router, the trace of what was done, and
    [_pattern_timestamps] *)
Record st : Type := mkst { svc : Σ; log : list call; stamps : list Z }.

Definition M (A : Type) : Type := st -> st * res A.

Definition ret {A} (a : A) : M A := fun s => (s, Ok a).
Definition raise {A} (e : exn) : M A := fun s => (s, Err e).
Definition bind {A B} (m : M A) (f : A -> M B) : M B :=
  fun s => match m s with
           | (s', Ok a) => f a s'
           | (s', Err e) => (s', Err e)
           end.
(** [try: m except Exception: h] *)
Definition try_with {A} (m : M A) (h : exn -> M A) : M A :=
  fun s => match m s with
           | (s', Ok a) => (s', Ok a)
           | (s', Err e) => h e s'
           end.

Local Notation "x <- m ;; k" := (bind m (fun x => k))
  (at level 61, m at next level, right associativity).
Local Notation "m ;;; k" := (bind m (fun _ => k))
  (at level 61, right associativity).

Definition emit (c : call) : M unit :=
  fun s => (mkst (svc s) ((log s ++ [c])%list) (stamps s), Ok tt).

(** [await self.memory_router.find_similar_patterns(...)] *)
Definition router_search (q : search_query) : M (list neighbor) :=
  fun s => let (σ', r) := search_op R (svc s) q in
           let s' := mkst σ' ((log s ++ [CSearch q])%list) (stamps s) in
           match r with Some l => (s', Ok l) | None => (s', Err ExService) end.

(** [await self.memory_router.store_pattern(...)] *)
Definition router_store (q : store_req) : M (option string) :=
  fun s => let (σ', r) := store_op R (svc s) q in
           let s' := mkst σ' ((log s ++ [CStore q])%list) (stamps s) in
           match r with Some i => (s', Ok i) | None => (s', Err ExService) end.

(** [await self.memory_router.record_outcome(...)] *)
Definition router_record (q : outcome_req) : M unit :=
  fun s => let (σ', ok) := record_op R (svc s) q in
           let s' := mkst σ' ((log s ++ [CRecord q])%list) (stamps s) in
           if ok then (s', Ok tt) else (s', Err ExService).

(** [_check_rate_limit], at clock reading [now] *)
Definition check_rate_limit (now : Z) : M bool :=
  fun s =>
    let cutoff := (now - RATE_LIMIT_WINDOW)%Z in
    let kept := filter (fun ts => (cutoff <? ts)%Z) (stamps s) in
    if MAX_PATTERNS_PER_MINUTE <=? length kept
    then (mkst (svc s) (log s) kept, Ok false)
    else (mkst (svc s) (log s) ((kept ++ [now])%list), Ok true).

(** the request of [_reinforce_existing_pattern] *)
Definition reinforce_request (pattern_id : string) (p : pattern) : outcome_req :=
  mkOutcome pattern_id ("reinforcement from " ++ tool_name p) "success"
    (confidence p) (qmin 1 (confidence p + (1 # 10))%Q)
    "Pattern reinforcement through repeated detection".

(** [_reinforce_existing_pattern] *)
Definition reinforce_existing_pattern (pattern_id : string) (p : pattern) : M unit :=
  try_with (router_record (reinforce_request pattern_id p)) (fun _ => ret tt).

Fixpoint scan_similar (p : pattern) (sims : list neighbor) : M bool :=
  match sims with
  | [] => ret false
  | n :: rest =>
      if qlt (9 # 10) (n_similarity n)
      then reinforce_existing_pattern (n_pattern_id n) p ;;; ret true
      else scan_similar p rest
  end.

(** the query of [_is_duplicate_pattern] *)
Definition dup_query (p : pattern) : search_query :=
  mkSearch (text_content p) 3 (8 # 10) (Some (category p)).

(** [_is_duplicate_pattern] *)
Definition is_duplicate_pattern (p : pattern) : M bool :=
  try_with
    (sims <- router_search (dup_query p) ;;
     scan_similar p sims)
    (fun _ => ret false).

(** [if not await self._is_duplicate_pattern(pattern): patterns.append(pattern)] *)
Definition keep_if_new (p : pattern) (acc : list pattern) : M (list pattern) :=
  dup <- is_duplicate_pattern p ;;
  if dup then ret acc else ret ((acc ++ [p])%list).

(** the request of [_store_pattern_semantically] *)
Definition store_request (p : pattern) : store_req :=
  mkStore (text_content p) (category p) (pattern_type p) (confidence p)
    (description p) (tool_name p) (pattern_type p) (context p) (project_path p).

(** [_store_pattern_semantically] *)
Definition store_pattern_semantically (p : pattern) : M (option string) :=
  try_with (router_store (store_request p)) (fun _ => ret None).

(** [pattern.metadata = pattern.metadata or {}; pattern.metadata['pattern_id'] = id] *)
Definition with_pattern_id (p : pattern) (pid : string) : pattern :=
  let md := match metadata p with Some d => d | None => [] end in
  let md' := ((filter (fun kv => negb (String.eqb (fst kv) "pattern_id")) md)
             ++ [("pattern_id", Py.PStr pid)])%list in
  mkPattern (pattern_type p) (category p) (description p) (text_content p)
    (confidence p) (context p) (tool_name p) (project_path p) (Some md').

(** step 5 of [extract_patterns] *)
Fixpoint store_all (ps : list pattern) (acc : list pattern) : M (list pattern) :=
  match ps with
  | [] => ret acc
  | p :: rest =>
      pid <- store_pattern_semantically p ;;
      match pid with
      | Some i => if Py.truthy (Some i) then store_all rest ((acc ++ [with_pattern_id p i])%list)
                  else store_all rest acc
      | None => store_all rest acc
      end
  end.

(** [o == s] for an [Optional[str]] *)
Definition opt_is (o : option string) (s : string) : bool :=
  match o with Some t => String.eqb t s | None => false end.

(** the tool-name cascade of [_detect_semantic_corrections] on one matched
    [correction_text]; [broader] is [f"{args} {result}".lower()].
    Returns [(preferred_tool, avoided_tool)]. *)
Definition correction_tools (ct : string) (args : Py.dict) (broader : string)
  : option string * option string :=
  let g (s : string) x n := Re.group s x n in
  match Re.search rx_use_not ct with
  | Some x => (g ct x 1, g ct x 2)
  | None =>
  match Re.search rx_prefer ct with
  | Some x => (g ct x 1, g ct x 2)
  | None =>
  match Re.search rx_switch_to ct with
  | Some x => (g ct x 1, g ct x 2)
  | None =>
  match Re.search rx_switch_from ct with
  | Some x => (g ct x 2, g ct x 1)
  | None =>
  match Re.search rx_always ct with
  | Some x =>
      (g ct x 1,
       match Re.search rx_never broader with
       | Some y => g broader y 1
       | None => None
       end)
  | None =>
  match Re.search rx_never ct with
  | Some x =>
      (match Re.search rx_always broader with
       | Some y => g broader y 1
       | None => None
       end,
       g ct x 1)
  | None =>
  match Re.search rx_use_for ct with
  | Some x =>
      let pref := g ct x 1 in
      let command := Py.lower (Py.str (Py.get args "command" (Py.PStr EmptyString))) in
      (pref,
       if Py.contains "pip" command && negb (opt_is pref "pip")
       then Some "pip"
       else if Py.contains "npm" command && negb (opt_is pref "npm")
       then Some "npm" else None)
  | None =>
  match Re.search rx_general ct with
  | Some x => (g ct x 1, g ct x 2)
  | None => (None, None)
  end end end end end end end end.

(** the description of a correction, before sanitizing *)
Definition correction_description (ct : string) (result : Py.pyval)
  (pref avoid : option string) : string :=
  let P := Py.fmt_opt pref in
  let A := Py.fmt_opt avoid in
  let base :=
    if Py.truthy pref && Py.truthy avoid then "use " ++ P ++ " instead of " ++ A
    else if Py.truthy pref then "prefer " ++ P
    else if Py.truthy avoid then "avoid " ++ A
    else "correction pattern detected" in
  let full_result_text := Py.lower (Py.str result) in
  if Py.contains "prefer" (Py.lower ct) then
    (if Py.truthy avoid then "prefer " ++ P ++ " over " ++ A else base)
  else if Py.contains "switch" (Py.lower ct) then
    (if Py.truthy avoid then "switch to " ++ P ++ " from " ++ A else base)
  else if Py.contains "actually" full_result_text then
    (if Py.truthy avoid then "actually use " ++ P ++ " not " ++ A else base)
  else if Py.contains "faster" full_result_text || Py.contains "better" full_result_text then
    (if Py.truthy pref then "use " ++ P ++ " for better performance" else base)
  else base.

Definition opt_val (o : option string) : Py.pyval :=
  match o with Some s => Py.PStr s | None => Py.PNone end.

(** the candidate built for one match: its raw description and the pattern,
    or nothing when no tool name was found *)
Definition correction_candidate (tool : string) (args : Py.dict) (result : Py.pyval)
  (combined ct : string) : option (string * pattern) :=
  let (pref, avoid) := correction_tools ct args combined in
  if Py.truthy pref || Py.truthy avoid then
    let cat := classify_tool_category
                 (match pref with Some s => s | None => EmptyString end)
                 (match avoid with Some s => s | None => EmptyString end) in
    let d := correction_description ct result pref avoid in
    Some (d, mkPattern "correction" cat (sanitize_description d)
               ("correction: " ++ d ++ " for " ++ cat) (8 # 10)
               [("preferred", opt_val pref); ("avoided", opt_val avoid);
                ("correction_text", Py.PStr ct); ("full_context", Py.PStr (Py.str result))]
               tool EmptyString None)
  else None.

(** [f"{args} {result}".lower()] *)
Definition combined_text (args : Py.dict) (result : Py.pyval) : string :=
  Py.lower (Py.str_dict args ++ " " ++ Py.str result).

(** the matched texts of all templates, template by template, match by match *)
Definition correction_texts (combined : string) : list string :=
  flat_map (fun r => map (fun x => match Re.group combined x 0 with
                                   | Some t => t | None => EmptyString end)
                         (Re.finditer r combined))
           (CORRECTION_PATTERNS true).

Definition correction_candidates (tool : string) (args : Py.dict) (result : Py.pyval)
  : list (string * pattern) :=
  let combined := combined_text args result in
  flat_map (fun ct => match correction_candidate tool args result combined ct with
                      | Some dp => [dp] | None => [] end)
           (correction_texts combined).

(** the loop body of [_detect_semantic_corrections] with [seen_descriptions] *)
Fixpoint corrections_loop (cands : list (string * pattern)) (seen : list string)
  (acc : list pattern) : M (list pattern) :=
  match cands with
  | [] => ret acc
  | (d, p) :: rest =>
      if existsb (String.eqb d) seen then corrections_loop rest seen acc
      else dup <- is_duplicate_pattern p ;;
           if dup then corrections_loop rest seen acc
           else corrections_loop rest (d :: seen) ((acc ++ [p])%list)
  end.

(** [_detect_semantic_corrections] *)
Definition detect_semantic_corrections (tool : string) (args : Py.dict)
  (result : Py.pyval) : M (list pattern) :=
  corrections_loop (correction_candidates tool args result) [] [].

(** [_get_recent_tools_semantic]: returns an empty list *)
Definition get_recent_tools_semantic (minutes : nat) (project_path : string)
  : list string := [].

(** [_get_project_tool_usage]: returns an empty dict *)
Definition get_project_tool_usage (project_path : string) : list (string * Z) := [].

Definition edit_or_write (t : string) : bool :=
  Py.startswith t "Edit" || Py.startswith t "Write".

(** [_detect_workflow_patterns] *)
Definition detect_workflow_patterns (tool : string) (args : Py.dict) (pp : string)
  : M (list pattern) :=
  let recent := get_recent_tools_semantic 5 pp in
  acc1 <-
    (if Py.startswith tool "Bash"
        && existsb (fun w => Py.contains w (Py.lower (Py.str_dict args)))
             ["test"; "pytest"; "jest"; "spec"]
     then
       if existsb edit_or_write recent then
         keep_if_new
           (mkPattern "workflow" "testing" "run tests after code changes"
              "workflow: run tests after code changes for quality assurance" (7 # 10)
              [("sequence", Py.PList [Py.PStr "code_change"; Py.PStr "test_execution"]);
               ("tools", Py.PList (map Py.PStr ((filter edit_or_write recent ++ [tool])%list)))]
              tool pp None) []
       else ret []
     else ret []) ;;
  let file_path := Py.get args "file_path" (Py.PStr EmptyString) in
  if existsb (String.eqb tool) ["Edit"; "Write"]
     && existsb (fun d => Py.contains d (Py.upper (Py.str file_path))) ["README"; "DOC"; "GUIDE"]
  then
    if existsb (fun a => Py.contains "src" a || Py.contains "lib" a) recent then
      keep_if_new
        (mkPattern "workflow" "documentation" "update documentation after feature changes"
           "workflow: update documentation after implementing features for maintainability"
           (6 # 10)
           [("sequence", Py.PList [Py.PStr "feature_development"; Py.PStr "documentation_update"]);
            ("file_path", file_path)]
           tool pp None) acc1
    else ret acc1
  else ret acc1.

Definition TOOL_WORDS : list string := ["uv"; "pip"; "npm"; "yarn"; "pnpm"; "poetry"; "conda"].

Fixpoint tool_words_loop (tool command : string) (words : list string)
  (acc : list pattern) : M (list pattern) :=
  match words with
  | [] => ret acc
  | w :: rest =>
      if Py.contains w (Py.lower command) then
        let cat := classify_tool_category w EmptyString in
        acc' <- keep_if_new
                  (mkPattern "tool_preference" cat ("use " ++ w ++ " for " ++ cat)
                     ("tool preference: " ++ w ++ " for " ++ cat ++ " package management")
                     (5 # 10)
                     [("tool", Py.PStr w); ("command", Py.PStr command);
                      ("action", Py.PStr "package_management")]
                     tool EmptyString None) acc ;;
        tool_words_loop tool command rest acc'
      else tool_words_loop tool command rest acc
  end.

(** [_detect_tool_preferences]; [command.lower()] raises [AttributeError]
    when the [command] argument is not a string *)
Definition detect_tool_preferences (tool : string) (args : Py.dict) (result : Py.pyval)
  : M (list pattern) :=
  if Py.startswith tool "Bash" then
    match Py.get args "command" (Py.PStr EmptyString) with
    | Py.PStr command =>
        if existsb (fun k => Py.contains k (Py.lower command))
             ["install"; "add"; "update"; "upgrade"]
        then tool_words_loop tool command TOOL_WORDS []
        else ret []
    | _ => raise ExAttribute
    end
  else ret [].

(** [Path(p).name] on POSIX paths: the last component that is neither
    empty nor [.] *)
Fixpoint split_slash (s : string) (cur : string) : list string :=
  match s with
  | EmptyString => [cur]
  | String c s' =>
      if Ascii.eqb c "/"%char then cur :: split_slash s' EmptyString
      else split_slash s' (cur ++ String c EmptyString)
  end.

Definition path_name (p : string) : string :=
  let parts := filter (fun c => negb (String.eqb c EmptyString || String.eqb c "."))
                      (split_slash p EmptyString) in
  last parts EmptyString.

Fixpoint context_loop (tool pp : string) (tally : list (string * Z))
  (acc : list pattern) : M (list pattern) :=
  match tally with
  | [] => ret acc
  | (t, usage_count) :: rest =>
      if (3 <=? usage_count)%Z then
        acc' <- keep_if_new
                  (mkPattern "context" "project-specific" ("use " ++ t ++ " in this project")
                     ("context: " ++ t ++ " is preferred in project " ++ path_name pp)
                     (qmin (9 # 10) (usage_count # 10))
                     [("tool", Py.PStr t); ("usage_count", Py.PInt usage_count);
                      ("project_path", Py.PStr pp)]
                     tool pp None) acc ;;
        context_loop tool pp rest acc'
      else context_loop tool pp rest acc
  end.

(** [_detect_contextual_patterns] *)
Definition detect_contextual_patterns (tool : string) (args : Py.dict)
  (result : Py.pyval) (pp : string) : M (list pattern) :=
  if negb (String.eqb pp EmptyString) then
    context_loop tool pp (get_project_tool_usage pp) []
  else ret [].

(** [extract_patterns], called at clock reading [now] *)
Definition extract_patterns (tool : string) (args : Py.dict) (result : Py.pyval)
  (pp : string) (now : Z) : M (list pattern) :=
  allowed <- check_rate_limit now ;;
  if negb allowed then ret [] else
  emit (CStage SCorrection) ;;;
  correction_patterns <- detect_semantic_corrections tool args result ;;
  emit (CStage SWorkflow) ;;;
  workflow_patterns <- detect_workflow_patterns tool args pp ;;
  emit (CStage SToolPreference) ;;;
  tool_prefs <- detect_tool_preferences tool args result ;;
  emit (CStage SContext) ;;;
  context_patterns <- detect_contextual_patterns tool args result pp ;;
  store_all ((correction_patterns ++ workflow_patterns ++ tool_prefs ++ context_patterns)%list) [].

(** the preference filter of [get_learned_preferences] *)
Definition is_preference (n : neighbor) : bool :=
  match n_metadata n with
  | MDict d =>
      match Py.dict_get d "pattern_type" with
      | Some (Py.PStr t) => String.eqb t "correction" || String.eqb t "tool_preference"
      | _ => false
      end
  | MOther _ =>
      existsb (fun i => Py.contains i (Py.lower (n_pattern_text n)))
        ["preference"; "correction"; "use"; "prefer"]
  end.

(** [x.get('confidence', 0)] *)
Definition conf_key (n : neighbor) : Q :=
  match n_confidence n with Some c => c | None => 0%Q end.

(** [sorted(xs, key=conf_key, reverse=True)]: a stable sort, equal keys keep
    their order *)
Fixpoint insert_desc (x : neighbor) (l : list neighbor) : list neighbor :=
  match l with
  | [] => [x]
  | y :: l' => if qlt (conf_key y) (conf_key x) then x :: l else y :: insert_desc x l'
  end.

Definition sort_by_confidence (l : list neighbor) : list neighbor :=
  fold_left (fun acc x => insert_desc x acc) l [].

(** [get_learned_preferences(category, min_confidence)] *)
Definition get_learned_preferences (cat : option string) (min_confidence : Q)
  : M (list neighbor) :=
  try_with
    (let query := if Py.truthy cat then "preferences for " ++ Py.fmt_opt cat
                  else "learned preferences" in
     patterns <- router_search (mkSearch query 50 min_confidence cat) ;;
     ret (sort_by_confidence (filter is_preference patterns)))
    (fun _ => ret []).

End Engine.

End Extractor.

(* ------------------------------------------------------------------ *)
(** ** The memory router's reinforcement, after the spec *)

Module SpecRouter.
Import Extractor.

(** a stored pattern, as far as reinforcement touches it *)
Record entry : Type := mkEntry {
  e_id : string; e_confidence : Q; e_frequency : Z; e_last_seen : Z }.

Record rstate : Type := mkRState { entries : list entry; clock : Z }.

(** Modelled from the spec: the memory router's [record_outcome]
    ([memory/v2/test_hybrid_memory.py] is not part of the sources).  As the
    spec's [record_reinforcement(id, confidence_delta, note)], it raises the
    stored entry's confidence by the step [confidence_after -
    confidence_before], capped at 1.0, increments its frequency and refreshes
    its last-seen time; an unknown id changes nothing. *)
Definition record_outcome (rs : rstate) (o : outcome_req) : rstate * bool :=
  let step := (o_confidence_after o - o_confidence_before o)%Q in
  (mkRState
     (map (fun e => if String.eqb (e_id e) (o_pattern_id o)
                    then mkEntry (e_id e) (qmin 1 (e_confidence e + step))
                                 (e_frequency e + 1) (clock rs)
                    else e) (entries rs))
     (clock rs), true).

(** the router with this reinforcement and any search and store *)
Definition spec_router
  (search : rstate -> search_query -> rstate * option (list neighbor))
  (store : rstate -> store_req -> rstate * option (option string)) : router rstate :=
  mkRouter search store record_outcome.

Definition find_entry (rs : rstate) (i : string) : option entry :=
  find (fun e => String.eqb (e_id e) i) (entries rs).

End SpecRouter.

(* ------------------------------------------------------------------ *)
(** ** HookCaptureSystemV2.capture_tool_execution *)

Module CaptureHook.
Import Extractor.

Record hook_state : Type := mkHook {
  v2_available : bool; v2_init_attempted : bool; force_v1 : bool }.

(** what one capture does: the audit write ([_store_execution]), the health
    check of [_initialize_v2_system], and the extraction attempts *)
Inductive action : Type := AAuditWrite | AHealthCheck | AExtractV2 | AExtractV1.

(** the returned status dict *)
Inductive outcome : Type :=
| NotCaptured (reason : string) (score : Q)
| Captured (significance : Q) (patterns_found : nat) (system_version : string).

Section Hook.
(** The environment of one call: whether the SQLite write succeeds, whether
    the AgentDB server answers the health check and the V2 system
    initialises, what the V2 extractor yields ([None]: it raises), and what
    the V1 extractor yields. *)
Context {pat : Type}.
Variable audit_ok health_ok : bool.
Variable v2_run : option (list pat).
Variable v1_run : list pat.

(** [_initialize_v2_system] *)
Definition initialize_v2_system (h : hook_state) : hook_state * list action * bool :=
  if v2_init_attempted h || force_v1 h then (h, [], v2_available h)
  else if health_ok then (mkHook true true (force_v1 h), [AHealthCheck], true)
  else (mkHook false true (force_v1 h), [AHealthCheck], false).

(** [capture_tool_execution] with its computed significance; [None] when
    [_store_execution] raises *)
Definition capture_tool_execution (h : hook_state) (significance : Q)
  : hook_state * list action * option outcome :=
  if qlt significance (3 # 10) then
    (h, [], Some (NotCaptured "low_significance" significance))
  else if negb audit_ok then (h, [AAuditWrite], None)
  else if qlt (6 # 10) significance then
    let '(h1, a1, _) :=
      if negb (v2_available h) then initialize_v2_system h else (h, [], v2_available h) in
    if v2_available h1 then
      match v2_run with
      | Some ps =>
          (h1, (AAuditWrite :: a1 ++ [AExtractV2])%list,
           Some (Captured significance (length ps) "v2"))
      | None =>
          (h1, (AAuditWrite :: a1 ++ [AExtractV2; AExtractV1])%list,
           Some (Captured significance (length v1_run) "v1_fallback"))
      end
    else
      (h1, (AAuditWrite :: a1 ++ [AExtractV1])%list,
       Some (Captured significance (length v1_run) "v1"))
  else (h, [AAuditWrite], Some (Captured significance 0 "v1")).

End Hook.
End CaptureHook.

(* ================================================================== *)
(** * Properties *)

Import Extractor.

(** ** String lemmas *)

Lemma ascii_lower_idem (c : ascii) : Py.ascii_lower (Py.ascii_lower c) = Py.ascii_lower c.
Proof. destruct c as [[] [] [] [] [] [] [] []]; reflexivity. Qed.

Lemma smap_app (f : ascii -> ascii) (a b : string) :
  Py.smap f (a ++ b) = (Py.smap f a ++ Py.smap f b)%string.
Proof. induction a as [|c a IH]; simpl; [reflexivity | now rewrite IH]. Qed.

Lemma lower_app (a b : string) : Py.lower (a ++ b) = (Py.lower a ++ Py.lower b)%string.
Proof. apply smap_app. Qed.

Lemma lower_idem (s : string) : Py.lower (Py.lower s) = Py.lower s.
Proof.
  unfold Py.lower. induction s as [|c s IH]; [reflexivity|].
  simpl. now rewrite ascii_lower_idem, IH.
Qed.

(** ** C10 *)

(** C10: category classification is case-insensitive,
    [classify(a, b) = classify(a.lower(), b.lower())], and decided by
    substring containment: ["contest"], which is no keyword of the
    taxonomy, is classified as [testing] through the keyword [test]. *)
Theorem classify_case_insensitive_substring :
  (forall a b : string,
      classify_tool_category a b = classify_tool_category (Py.lower a) (Py.lower b))
  /\ classify_tool_category "contest" EmptyString = "testing"
  /\ ~ In "contest" (flat_map snd SEMANTIC_CATEGORIES).
Proof.
  split; [|split].
  - intros a b. unfold classify_tool_category.
    rewrite !lower_app, lower_idem, lower_idem. reflexivity.
  - reflexivity.
  - simpl. intuition discriminate.
Qed.

(** ** Rational comparisons *)

Lemma qlt_true (a b : Q) : qlt a b = true <-> (a < b)%Q.
Proof.
  unfold qlt. rewrite negb_true_iff. split; intro H.
  - apply Qnot_le_lt. intro H'. apply Qle_bool_iff in H'. congruence.
  - destruct (Qle_bool b a) eqn:E; [|reflexivity].
    apply Qle_bool_iff in E. exfalso. apply (Qlt_not_le a b H E).
Qed.

Lemma qlt_false (a b : Q) : qlt a b = false <-> (b <= a)%Q.
Proof.
  unfold qlt. rewrite negb_false_iff. apply Qle_bool_iff.
Qed.

(** ** C4 *)

Import CaptureHook.

(** C4: with [s] the significance of the event: below 0.3 the capture
    returns not-captured with reason [low_significance] and neither writes
    the audit log nor extracts; from 0.3 to 0.6 it writes the audit log and
    extracts nothing; an extraction (V2 or V1) is attempted only when
    [s > 0.6] (and is attempted then, once the audit write succeeded). *)
Theorem capture_significance_gates {pat : Type} (audit_ok health_ok : bool)
  (v2_run : option (list pat)) (v1_run : list pat) (h : hook_state) (s : Q) :
  let '(_, acts, out) := capture_tool_execution audit_ok health_ok v2_run v1_run h s in
  ((s < 3 # 10)%Q -> acts = [] /\ out = Some (NotCaptured "low_significance" s))
  /\ ((3 # 10 <= s)%Q -> (s <= 6 # 10)%Q ->
        acts = [AAuditWrite]
        /\ (audit_ok = true -> out = Some (Captured s 0 "v1")))
  /\ ((In AExtractV2 acts \/ In AExtractV1 acts) -> (6 # 10 < s)%Q)
  /\ ((6 # 10 < s)%Q -> audit_ok = true -> In AExtractV2 acts \/ In AExtractV1 acts).
Proof.
  unfold capture_tool_execution, initialize_v2_system.
  destruct h as [av at_ fv].
  destruct (qlt s (3 # 10)) eqn:E1; [apply qlt_true in E1 | apply qlt_false in E1].
  - repeat split; intros; try reflexivity;
      try (exfalso; lra);
      try (simpl in *; tauto).
  - destruct audit_ok; simpl.
    + destruct (qlt (6 # 10) s) eqn:E2; [apply qlt_true in E2 | apply qlt_false in E2].
      * destruct av, at_, fv, health_ok, v2_run; simpl;
          repeat split; intros;
          try (exfalso; lra);
          auto 6 with datatypes.
      * repeat split; intros; try reflexivity;
          try (exfalso; lra);
          simpl in *; intuition discriminate.
    + repeat split; intros; try reflexivity;
        try (exfalso; lra);
        simpl in *; intuition discriminate.
Qed.

Lemma capture_significance_gates_witness :
  let '(_, acts, out) :=
    capture_tool_execution (pat := unit) true true None [] (mkHook false false false) (1 # 10) in
  acts = [] /\ out = Some (NotCaptured "low_significance" (1 # 10)).
Proof.
  pose proof (capture_significance_gates (pat := unit) true true None []
                (mkHook false false false) (1 # 10)) as H.
  simpl in H |- *. destruct H as [H _]. apply H. vm_compute. reflexivity.
Defined.

(** ** Reasoning about the extractor monad *)

Section Laws.
Context {Σ : Type} (R : router Σ).

(** the extractor steps recorded in a trace *)
Definition stages_of (l : list call) : list stage :=
  flat_map (fun c => match c with CStage x => [x] | _ => [] end) l.

(** leaves [_pattern_timestamps] and the extractor steps alone *)
Definition inert {A} (m : @M Σ A) : Prop :=
  forall s, stamps (fst (m s)) = stamps s
            /\ stages_of (log (fst (m s))) = stages_of (log s).

(** lets no router failure escape *)
Definition no_service_error {A} (m : @M Σ A) : Prop :=
  forall s, snd (m s) <> Err ExService.

(** every value it returns satisfies [P] *)
Definition returns {A} (P : A -> Prop) (m : @M Σ A) : Prop :=
  forall s a, snd (m s) = Ok a -> P a.

Lemma stages_of_app (l1 l2 : list call) :
  stages_of (l1 ++ l2) = (stages_of l1 ++ stages_of l2)%list.
Proof. unfold stages_of. apply flat_map_app. Qed.

Lemma ret_inert {A} (a : A) : inert (@ret Σ A a).
Proof. intro s. split; reflexivity. Qed.

Lemma raise_inert {A} (e : exn) : inert (@raise Σ A e).
Proof. intro s. split; reflexivity. Qed.

Lemma bind_inert {A B} (m : @M Σ A) (f : A -> @M Σ B) :
  inert m -> (forall a, inert (f a)) -> inert (bind m f).
Proof.
  intros Hm Hf s. unfold bind. specialize (Hm s).
  destruct (m s) as [s1 [a|e]]; simpl in *; [|exact Hm].
  destruct (Hf a s1) as [H1 H2]. destruct Hm as [H3 H4].
  split; congruence.
Qed.

Lemma try_inert {A} (m : @M Σ A) (h : exn -> @M Σ A) :
  inert m -> (forall e, inert (h e)) -> inert (try_with m h).
Proof.
  intros Hm Hh s. unfold try_with. specialize (Hm s).
  destruct (m s) as [s1 [a|e]]; simpl in *; [exact Hm|].
  destruct (Hh e s1) as [H1 H2]. destruct Hm as [H3 H4].
  split; congruence.
Qed.

Lemma router_search_inert q : inert (router_search R q).
Proof.
  intro s. unfold router_search. destruct (search_op R (svc s) q) as [σ [l|]];
  simpl; rewrite stages_of_app; simpl; rewrite app_nil_r; split; reflexivity.
Qed.

Lemma router_store_inert q : inert (router_store R q).
Proof.
  intro s. unfold router_store. destruct (store_op R (svc s) q) as [σ [i|]];
  simpl; rewrite stages_of_app; simpl; rewrite app_nil_r; split; reflexivity.
Qed.

Lemma router_record_inert q : inert (router_record R q).
Proof.
  intro s. unfold router_record. destruct (record_op R (svc s) q) as [σ []];
  simpl; rewrite stages_of_app; simpl; rewrite app_nil_r; split; reflexivity.
Qed.

Lemma ret_nse {A} (a : A) : no_service_error (@ret Σ A a).
Proof. intros s H. discriminate H. Qed.

Lemma raise_attr_nse {A} : no_service_error (@raise Σ A ExAttribute).
Proof. intros s H. discriminate H. Qed.

Lemma bind_nse {A B} (m : @M Σ A) (f : A -> @M Σ B) :
  no_service_error m -> (forall a, no_service_error (f a)) -> no_service_error (bind m f).
Proof.
  intros Hm Hf s. unfold bind. specialize (Hm s).
  destruct (m s) as [s1 [a|e]]; simpl in *; [apply Hf|].
  intro E. injection E as ->. apply Hm. reflexivity.
Qed.

Lemma try_nse {A} (m : @M Σ A) (h : exn -> @M Σ A) :
  (forall e, no_service_error (h e)) -> no_service_error (try_with m h).
Proof.
  intros Hh s. unfold try_with.
  destruct (m s) as [s1 [a|e]]; simpl; [discriminate | apply Hh].
Qed.

Lemma ret_returns {A} (P : A -> Prop) (a : A) : P a -> returns P (@ret Σ A a).
Proof. intros H s b E. simpl in E. congruence. Qed.

Lemma raise_returns {A} (P : A -> Prop) (e : exn) : returns P (@raise Σ A e).
Proof. intros s b E. discriminate E. Qed.

Lemma bind_returns {A B} (P : A -> Prop) (Q' : B -> Prop) (m : @M Σ A) (f : A -> @M Σ B) :
  returns P m -> (forall a, P a -> returns Q' (f a)) -> returns Q' (bind m f).
Proof.
  intros Hm Hf s b. unfold bind. specialize (Hm s).
  destruct (m s) as [s1 [a|e]]; simpl in *; [|discriminate].
  apply (Hf a (Hm a eq_refl)).
Qed.

Lemma try_returns {A} (P : A -> Prop) (m : @M Σ A) (h : exn -> @M Σ A) :
  returns P m -> (forall e, returns P (h e)) -> returns P (try_with m h).
Proof.
  intros Hm Hh s b. unfold try_with. specialize (Hm s).
  destruct (m s) as [s1 [a|e]]; simpl in *; [intro E; injection E as <-; exact (Hm a eq_refl) | apply Hh].
Qed.

End Laws.

Create HintDb engine.
#[export] Hint Resolve ret_inert raise_inert router_search_inert router_store_inert
  router_record_inert ret_nse raise_attr_nse : engine.

(** push a goal about a composite computation into goals about its parts *)
Ltac decompose_m :=
  repeat match goal with
  | |- inert (bind _ _) => apply bind_inert; [|intros ?; cbv beta]
  | |- inert (try_with _ _) => apply try_inert; [|intros ?; cbv beta]
  | |- no_service_error (bind _ _) => apply bind_nse; [|intros ?; cbv beta]
  | |- no_service_error (try_with _ _) => apply try_nse; intros ?; cbv beta
  | |- _ => solve [eauto with engine]
  end.

Ltac case_if :=
  match goal with |- context [if ?c then _ else _] => destruct c end.

Section Components.
Context {Σ : Type} (R : router Σ).

Lemma emit_nse (c : call) : no_service_error (@emit Σ c).
Proof. intros s H. discriminate H. Qed.

Lemma check_rate_limit_nse (now : Z) : no_service_error (@check_rate_limit Σ now).
Proof.
  intros s. unfold check_rate_limit.
  destruct (Nat.leb _ _); discriminate.
Qed.

Lemma reinforce_inert (i : string) (p : pattern) : inert (reinforce_existing_pattern R i p).
Proof. unfold reinforce_existing_pattern. decompose_m. Qed.

Lemma scan_similar_inert (p : pattern) (sims : list neighbor) : inert (scan_similar R p sims).
Proof.
  induction sims as [|n sims IH]; simpl; [auto with engine|].
  destruct (qlt _ _); [|exact IH]. decompose_m; try apply reinforce_inert.
Qed.

Lemma is_duplicate_inert (p : pattern) : inert (is_duplicate_pattern R p).
Proof. unfold is_duplicate_pattern. decompose_m; try apply scan_similar_inert. Qed.

Lemma is_duplicate_nse (p : pattern) : no_service_error (is_duplicate_pattern R p).
Proof. unfold is_duplicate_pattern. decompose_m. Qed.

Lemma keep_if_new_inert (p : pattern) (acc : list pattern) : inert (keep_if_new R p acc).
Proof.
  unfold keep_if_new. decompose_m; [apply is_duplicate_inert|].
  destruct a; auto with engine.
Qed.

Lemma keep_if_new_nse (p : pattern) (acc : list pattern) :
  no_service_error (keep_if_new R p acc).
Proof.
  unfold keep_if_new. decompose_m; [apply is_duplicate_nse|].
  destruct a; auto with engine.
Qed.

#[local] Hint Resolve keep_if_new_inert keep_if_new_nse is_duplicate_inert
  is_duplicate_nse : engine.

Lemma corrections_loop_inert cands seen acc : inert (corrections_loop R cands seen acc).
Proof.
  revert seen acc. induction cands as [|[d p] cands IH]; intros seen acc; simpl;
    [auto with engine|].
  destruct (existsb _ _); [apply IH|].
  decompose_m; try (destruct a; apply IH).
Qed.

Lemma corrections_loop_nse cands seen acc : no_service_error (corrections_loop R cands seen acc).
Proof.
  revert seen acc. induction cands as [|[d p] cands IH]; intros seen acc; simpl;
    [auto with engine|].
  destruct (existsb _ _); [apply IH|].
  decompose_m; try (destruct a; apply IH).
Qed.

Lemma detect_workflow_inert tool args pp : inert (detect_workflow_patterns R tool args pp).
Proof.
  unfold detect_workflow_patterns.
  apply bind_inert; [repeat destruct (_ && _); simpl; auto with engine|].
  intro a. simpl. repeat destruct (_ && _); simpl; auto with engine.
Qed.

Lemma detect_workflow_nse tool args pp : no_service_error (detect_workflow_patterns R tool args pp).
Proof.
  unfold detect_workflow_patterns.
  apply bind_nse; [repeat destruct (_ && _); simpl; auto with engine|].
  intro a. simpl. repeat destruct (_ && _); simpl; auto with engine.
Qed.

Lemma tool_words_loop_inert tool command words acc :
  inert (tool_words_loop R tool command words acc).
Proof.
  revert acc. induction words as [|w words IH]; intro acc; simpl; [auto with engine|].
  destruct (Py.contains _ _); [decompose_m; try apply IH | apply IH].
Qed.

Lemma tool_words_loop_nse tool command words acc :
  no_service_error (tool_words_loop R tool command words acc).
Proof.
  revert acc. induction words as [|w words IH]; intro acc; simpl; [auto with engine|].
  destruct (Py.contains _ _); [decompose_m; try apply IH | apply IH].
Qed.

Lemma detect_tool_preferences_inert tool args result :
  inert (detect_tool_preferences R tool args result).
Proof.
  unfold detect_tool_preferences.
  destruct (Py.startswith _ _); [|auto with engine].
  destruct (Py.get _ _ _); auto with engine.
  destruct (existsb _ _); [apply tool_words_loop_inert | auto with engine].
Qed.

Lemma detect_tool_preferences_nse tool args result :
  no_service_error (detect_tool_preferences R tool args result).
Proof.
  unfold detect_tool_preferences.
  destruct (Py.startswith _ _); [|auto with engine].
  destruct (Py.get _ _ _); auto with engine.
  destruct (existsb _ _); [apply tool_words_loop_nse | auto with engine].
Qed.

Lemma context_loop_inert tool pp tally acc : inert (context_loop R tool pp tally acc).
Proof.
  revert acc. induction tally as [|[t n] tally IH]; intro acc; simpl; [auto with engine|].
  destruct (_ <=? _)%Z; [decompose_m; try apply IH | apply IH].
Qed.

Lemma context_loop_nse tool pp tally acc : no_service_error (context_loop R tool pp tally acc).
Proof.
  revert acc. induction tally as [|[t n] tally IH]; intro acc; simpl; [auto with engine|].
  destruct (_ <=? _)%Z; [decompose_m; try apply IH | apply IH].
Qed.

Lemma detect_contextual_inert tool args result pp :
  inert (detect_contextual_patterns R tool args result pp).
Proof.
  unfold detect_contextual_patterns. destruct (negb _); [apply context_loop_inert|auto with engine].
Qed.

Lemma detect_contextual_nse tool args result pp :
  no_service_error (detect_contextual_patterns R tool args result pp).
Proof.
  unfold detect_contextual_patterns. destruct (negb _); [apply context_loop_nse|auto with engine].
Qed.

Lemma store_all_inert ps acc : inert (store_all R ps acc).
Proof.
  revert acc. induction ps as [|p ps IH]; intro acc; simpl; [auto with engine|].
  unfold store_pattern_semantically. apply bind_inert; [decompose_m|].
  intros [i|]; [case_if|]; apply IH.
Qed.

Lemma store_all_nse ps acc : no_service_error (store_all R ps acc).
Proof.
  revert acc. induction ps as [|p ps IH]; intro acc; simpl; [auto with engine|].
  unfold store_pattern_semantically. apply bind_nse; [decompose_m|].
  intros [i|]; [case_if|]; apply IH.
Qed.

End Components.

#[export] Hint Resolve emit_nse check_rate_limit_nse is_duplicate_nse keep_if_new_nse
  corrections_loop_nse detect_workflow_nse detect_tool_preferences_nse
  detect_contextual_nse store_all_nse : engine.

(** ** C1 and C3: the duplicate check and the insertion step *)

Section Dedup.
Context {Σ : Type} (R : router Σ).

Lemma scan_similar_spec (p : pattern) (sims : list neighbor) (s : @st Σ) :
  exists s', scan_similar R p sims s
             = (s', Ok (existsb (fun n => qlt (9 # 10) (n_similarity n)) sims))
    /\ stamps s' = stamps s
    /\ log s' = (log s ++
                 match find (fun n => qlt (9 # 10) (n_similarity n)) sims with
                 | Some n => [CRecord (reinforce_request (n_pattern_id n) p)]
                 | None => []
                 end)%list.
Proof.
  revert s. induction sims as [|n sims IH]; intro s; simpl.
  - exists s. rewrite app_nil_r. auto.
  - destruct (qlt (9 # 10) (n_similarity n)); simpl; [|apply IH].
    unfold bind, reinforce_existing_pattern, try_with, router_record, ret.
    destruct (record_op R (svc s) (reinforce_request (n_pattern_id n) p)) as [σ []];
      simpl; eexists; repeat split; reflexivity.
Qed.

Lemma is_duplicate_spec (p : pattern) (s : @st Σ) :
  exists s', is_duplicate_pattern R p s
             = (s', Ok match snd (search_op R (svc s) (dup_query p)) with
                       | Some sims => existsb (fun n => qlt (9 # 10) (n_similarity n)) sims
                       | None => false
                       end)
    /\ stamps s' = stamps s
    /\ log s' = (log s ++ CSearch (dup_query p) ::
                 match snd (search_op R (svc s) (dup_query p)) with
                 | Some sims =>
                     match find (fun n => qlt (9 # 10) (n_similarity n)) sims with
                     | Some n => [CRecord (reinforce_request (n_pattern_id n) p)]
                     | None => []
                     end
                 | None => []
                 end)%list.
Proof.
  unfold is_duplicate_pattern, try_with, bind, router_search.
  destruct (search_op R (svc s) (dup_query p)) as [σ [sims|]]; simpl.
  - destruct (scan_similar_spec p sims (mkst σ (log s ++ [CSearch (dup_query p)]) (stamps s)))
      as [s' [E [Hs Hl]]].
    rewrite E. exists s'. simpl in *. rewrite Hl, <- app_assoc. auto.
  - eexists. split; [reflexivity|]. simpl. auto.
Qed.

End Dedup.

(** C1: the duplicate check of a candidate queries the router once, for
    its [text_content] within its [category], with [top_k = 3] and threshold
    0.8; the candidate is a duplicate exactly when some returned neighbour
    has similarity above 0.9, and then the first such neighbour is
    reinforced ([record_outcome]) and the candidate is not kept; otherwise
    it is kept, and the insertion step hands every kept candidate to
    [store_pattern]. *)
Theorem dedup_check_decides {Σ : Type} (R : router Σ) :
  (forall p : pattern,
      dup_query p = mkSearch (text_content p) 3 (8 # 10) (Some (category p)))
  /\ (forall (p : pattern) (acc : list pattern) (s : @st Σ),
      let near := fun n => qlt (9 # 10) (n_similarity n) in
      let answer := snd (search_op R (svc s) (dup_query p)) in
      let dup := match answer with Some sims => existsb near sims | None => false end in
      (exists s', is_duplicate_pattern R p s = (s', Ok dup)
        /\ log s' = (log s ++ CSearch (dup_query p) ::
                     match answer with
                     | Some sims =>
                         match find near sims with
                         | Some n => [CRecord (reinforce_request (n_pattern_id n) p)]
                         | None => []
                         end
                     | None => []
                     end)%list)
      /\ (exists s', keep_if_new R p acc s
                     = (s', Ok (if dup then acc else (acc ++ [p])%list))))
  /\ (forall (ps acc : list pattern) (s : @st Σ),
      exists s' out, store_all R ps acc s = (s', Ok out)
        /\ log s' = (log s ++ map (fun p => CStore (store_request p)) ps)%list).
Proof.
  split; [reflexivity|]. split.
  - intros p acc s near answer dup.
    destruct (is_duplicate_spec R p s) as [s' [E [_ Hl]]]. split.
    + exists s'. split; assumption.
    + unfold keep_if_new, bind. rewrite E. exists s'. unfold dup, answer.
      destruct (snd (search_op R (svc s) (dup_query p))); [destruct existsb|];
        reflexivity.
  - intros ps. induction ps as [|p ps IH]; intros acc s; simpl.
    + exists s, acc. rewrite app_nil_r. auto.
    + unfold bind at 1, store_pattern_semantically, try_with, router_store, ret.
      destruct (store_op R (svc s) (store_request p)) as [σ [[i|]|]]; simpl;
        repeat match goal with |- context [if ?b then _ else _] => destruct b end;
        match goal with
        | |- exists s' out, store_all R ps ?a ?s0 = _ /\ _ =>
            destruct (IH a s0) as [s' [out [E Hl]]]; exists s', out; split;
              [exact E|rewrite Hl; simpl; rewrite <- app_assoc; reflexivity]
        end.
Qed.

Lemma extract_patterns_nse {Σ : Type} (R : router Σ) tool args result pp now :
  no_service_error (extract_patterns R tool args result pp now).
Proof.
  unfold extract_patterns. apply bind_nse; [apply check_rate_limit_nse|].
  intros a. destruct (negb a); [apply ret_nse|]. decompose_m.
Qed.

(** C3: router failures are contained.  A failing similarity search makes
    the duplicate check answer [False] (the candidate is kept); a failing
    store makes [store_pattern] answer [None], and the insertion step just
    goes on with the next candidate; and no router failure ever escapes
    [extract_patterns] as an error. *)
Theorem router_failures_contained {Σ : Type} (R : router Σ) :
  (forall (p : pattern) (acc : list pattern) (s : @st Σ),
      snd (search_op R (svc s) (dup_query p)) = None ->
      snd (is_duplicate_pattern R p s) = Ok false
      /\ snd (keep_if_new R p acc s) = Ok (acc ++ [p])%list)
  /\ (forall (p : pattern) (rest acc : list pattern) (s : @st Σ),
      snd (store_op R (svc s) (store_request p)) = None ->
      snd (store_pattern_semantically R p s) = Ok None
      /\ store_all R (p :: rest) acc s
         = store_all R rest acc (fst (store_pattern_semantically R p s)))
  /\ (forall tool args result pp now (s : @st Σ),
      snd (extract_patterns R tool args result pp now s) <> Err ExService).
Proof.
  split; [|split].
  - intros p acc s H.
    destruct (is_duplicate_spec R p s) as [s1 [E1 _]]. rewrite H in E1.
    unfold keep_if_new, bind. rewrite E1. split; reflexivity.
  - intros p rest acc s H. simpl.
    unfold bind at 1, store_pattern_semantically, try_with, router_store, ret.
    destruct (store_op R (svc s) (store_request p)) as [σ r]. simpl in H. subst r.
    split; reflexivity.
  - intros. apply extract_patterns_nse.
Qed.

Lemma router_failures_contained_witness :
  let R := mkRouter (fun (σ : unit) _ => (σ, None)) (fun σ _ => (σ, None))
                    (fun σ _ => (σ, false)) in
  let p := mkPattern "tool_preference" "package-management" "use uv"
             "use uv for package-management" (1 # 2) [] "Bash" EmptyString None in
  let s := mkst tt [] [] in
  (snd (is_duplicate_pattern R p s) = Ok false
   /\ snd (keep_if_new R p [] s) = Ok [p])
  /\ (snd (store_pattern_semantically R p s) = Ok None
      /\ store_all R [p] [] s = store_all R [] [] (fst (store_pattern_semantically R p s))).
Proof.
  intros R p s. split.
  - apply (proj1 (router_failures_contained R) p [] s). reflexivity.
  - apply (proj1 (proj2 (router_failures_contained R)) p [] [] s). reflexivity.
Defined.

(** ** C8: categories *)

(** the category taxonomy of the specification *)
Definition taxonomy : list string :=
  ["package-management"; "testing"; "version-control"; "code-quality";
   "build-tools"; "documentation"; "general"].

Definition in_taxonomy (p : pattern) : Prop := In (category p) taxonomy.

Lemma classify_in_taxonomy (a b : string) : In (classify_tool_category a b) taxonomy.
Proof.
  unfold classify_tool_category.
  destruct (find _ SEMANTIC_CATEGORIES) as [ck|] eqn:E; [|simpl; tauto].
  apply find_some in E as [H _]. simpl in H.
  repeat destruct H as [<-|H]; simpl; tauto.
Qed.

Section Categories.
Context {Σ : Type} (R : router Σ).

Lemma true_returns {A} (m : @M Σ A) : returns (fun _ => True) m.
Proof. intros s a _. exact I. Qed.

Lemma keep_if_new_returns (P : pattern -> Prop) (p : pattern) (acc : list pattern) :
  Forall P acc -> P p -> returns (Forall P) (keep_if_new R p acc).
Proof.
  intros Hacc Hp. unfold keep_if_new.
  apply bind_returns with (P := fun _ => True); [apply true_returns|].
  intros [] _; apply ret_returns; [assumption|apply Forall_app; auto].
Qed.

Lemma corrections_loop_returns (P : pattern -> Prop) cands seen acc :
  Forall (fun dp => P (snd dp)) cands -> Forall P acc ->
  returns (Forall P) (corrections_loop R cands seen acc).
Proof.
  revert seen acc. induction cands as [|[d p] cands IH]; intros seen acc Hc Ha; simpl.
  - apply ret_returns. exact Ha.
  - inversion Hc as [|? ? Hp Hc']; subst. simpl in Hp.
    destruct (existsb _ _); [apply IH; assumption|].
    apply bind_returns with (P := fun _ => True); [apply true_returns|].
    intros [] _; apply IH; try assumption. apply Forall_app; auto.
Qed.

Lemma correction_candidates_taxonomy tool args result :
  Forall (fun dp => in_taxonomy (snd dp)) (correction_candidates tool args result).
Proof.
  apply Forall_forall. intros x Hx. unfold correction_candidates in Hx.
  apply in_flat_map in Hx as [ct [_ Hx]]. unfold correction_candidate in Hx.
  destruct (correction_tools _ _ _). destruct (_ || _); simpl in Hx; [|contradiction].
  destruct Hx as [<-|[]]. apply classify_in_taxonomy.
Qed.

Lemma detect_workflow_taxonomy tool args pp :
  returns (Forall in_taxonomy) (detect_workflow_patterns R tool args pp).
Proof.
  unfold detect_workflow_patterns.
  apply bind_returns with (P := Forall in_taxonomy).
  - repeat case_if; try (apply ret_returns; constructor).
    apply keep_if_new_returns; [constructor|simpl; unfold in_taxonomy; simpl; tauto].
  - intros acc Hacc. repeat case_if; try (apply ret_returns; exact Hacc).
    apply keep_if_new_returns; [exact Hacc|unfold in_taxonomy; simpl; tauto].
Qed.

Lemma tool_words_loop_taxonomy tool command words acc :
  Forall in_taxonomy acc -> returns (Forall in_taxonomy) (tool_words_loop R tool command words acc).
Proof.
  revert acc. induction words as [|w words IH]; intros acc Hacc; simpl.
  - apply ret_returns. exact Hacc.
  - case_if; [|apply IH; exact Hacc].
    apply bind_returns with (P := Forall in_taxonomy); [|exact IH].
    apply keep_if_new_returns; [exact Hacc|apply classify_in_taxonomy].
Qed.

Lemma detect_tool_preferences_taxonomy tool args result :
  returns (Forall in_taxonomy) (detect_tool_preferences R tool args result).
Proof.
  unfold detect_tool_preferences. case_if; [|apply ret_returns; constructor].
  destruct (Py.get _ _ _); try apply raise_returns.
  case_if; [apply tool_words_loop_taxonomy; constructor|apply ret_returns; constructor].
Qed.

Lemma detect_contextual_taxonomy tool args result pp :
  returns (Forall in_taxonomy) (detect_contextual_patterns R tool args result pp).
Proof.
  unfold detect_contextual_patterns, get_project_tool_usage.
  case_if; simpl; apply ret_returns; constructor.
Qed.

Lemma store_all_taxonomy ps acc :
  Forall in_taxonomy ps -> Forall in_taxonomy acc ->
  returns (Forall in_taxonomy) (store_all R ps acc).
Proof.
  revert acc. induction ps as [|p ps IH]; intros acc Hps Hacc; simpl.
  - apply ret_returns. exact Hacc.
  - inversion Hps as [|? ? Hp Hps']; subst.
    apply bind_returns with (P := fun _ => True); [apply true_returns|].
    intros [i|] _; [case_if|]; apply IH; try assumption.
    apply Forall_app. split; [exact Hacc|constructor; [exact Hp|constructor]].
Qed.

End Categories.

(** C8: every pattern returned by each of the four extractors, and every
    pattern [extract_patterns] returns, has its category in the taxonomy
    package-management, testing, version-control, code-quality, build-tools,
    documentation, general. *)
Theorem extracted_categories_in_taxonomy {Σ : Type} (R : router Σ) :
  (forall tool args result (s : @st Σ) l,
      snd (detect_semantic_corrections R tool args result s) = Ok l ->
      Forall in_taxonomy l)
  /\ (forall tool args pp (s : @st Σ) l,
      snd (detect_workflow_patterns R tool args pp s) = Ok l -> Forall in_taxonomy l)
  /\ (forall tool args result (s : @st Σ) l,
      snd (detect_tool_preferences R tool args result s) = Ok l -> Forall in_taxonomy l)
  /\ (forall tool args result pp (s : @st Σ) l,
      snd (detect_contextual_patterns R tool args result pp s) = Ok l -> Forall in_taxonomy l)
  /\ (forall tool args result pp now (s : @st Σ) l,
      snd (extract_patterns R tool args result pp now s) = Ok l -> Forall in_taxonomy l).
Proof.
  split; [|split; [|split; [|split]]].
  - intros tool args result. apply corrections_loop_returns;
      [apply correction_candidates_taxonomy|constructor].
  - intros tool args pp. apply detect_workflow_taxonomy.
  - intros tool args result. apply detect_tool_preferences_taxonomy.
  - intros tool args result pp. apply detect_contextual_taxonomy.
  - intros tool args result pp now. unfold extract_patterns.
    apply bind_returns with (P := fun _ => True); [apply true_returns|].
    intros a _. case_if; [apply ret_returns; constructor|].
    repeat (apply bind_returns with (P := fun _ => True); [apply true_returns|intros _ _]).
    apply bind_returns with (P := Forall in_taxonomy).
    { apply corrections_loop_returns; [apply correction_candidates_taxonomy|constructor]. }
    intros c Hc. apply bind_returns with (P := fun _ => True); [apply true_returns|intros _ _].
    apply bind_returns with (P := Forall in_taxonomy); [apply detect_workflow_taxonomy|].
    intros w Hw. apply bind_returns with (P := fun _ => True); [apply true_returns|intros _ _].
    apply bind_returns with (P := Forall in_taxonomy); [apply detect_tool_preferences_taxonomy|].
    intros t Ht. apply bind_returns with (P := fun _ => True); [apply true_returns|intros _ _].
    apply bind_returns with (P := Forall in_taxonomy); [apply detect_contextual_taxonomy|].
    intros x Hx. apply store_all_taxonomy; [|constructor].
    apply Forall_app. split; [exact Hc|].
    apply Forall_app. split; [exact Hw|].
    apply Forall_app. split; [exact Ht|exact Hx].
Qed.

(** ** Sample runs *)

(** a similarity service that finds nothing and stores everything *)
Definition quiet_router : router unit :=
  mkRouter (fun σ _ => (σ, Some [])) (fun σ _ => (σ, Some (Some "p1")))
           (fun σ _ => (σ, true)).

Definition empty_st : @st unit := mkst tt [] [].

(** the event of end-to-end scenario 1 *)
Definition uv_args : Py.dict := [("command", Py.PStr "pip install requests")].
Definition uv_result : Py.pyval := Py.PStr "Actually, use uv not pip".

Definition uv_run : @st unit * res (list pattern) :=
  extract_patterns quiet_router "Bash" uv_args uv_result EmptyString 0%Z empty_st.

Definition uv_patterns : list pattern :=
  match snd uv_run with Ok l => l | Err _ => [] end.

Lemma extracted_categories_in_taxonomy_witness :
  snd uv_run = Ok uv_patterns /\ Forall in_taxonomy uv_patterns.
Proof.
  split; [vm_compute; reflexivity|].
  apply (proj2 (proj2 (proj2 (proj2 (extracted_categories_in_taxonomy quiet_router))))
           "Bash" uv_args uv_result EmptyString 0%Z empty_st).
  vm_compute. reflexivity.
Defined.

(** ** C7: the order of the extractor steps *)

Section Stages.
Context {Σ : Type} (R : router Σ).

Lemma bind_ok_first {A B} (m : @M Σ A) (f : A -> @M Σ B) (s : @st Σ) (a : A) :
  snd (m s) = Ok a -> bind m f s = f a (fst (m s)).
Proof. intro H. unfold bind. destruct (m s) as [s1 r]. simpl in H. subst r. reflexivity. Qed.

Lemma check_rate_limit_log (now : Z) (s : @st Σ) :
  log (fst (check_rate_limit now s)) = log s.
Proof. unfold check_rate_limit. case_if; reflexivity. Qed.

End Stages.

Section History.
Context {Σ : Type} (R : router Σ).

Lemma workflow_inactive tool args pp (s : @st Σ) :
  detect_workflow_patterns R tool args pp s = (s, Ok []).
Proof.
  unfold detect_workflow_patterns, get_recent_tools_semantic. cbn [existsb].
  unfold bind. repeat case_if; reflexivity.
Qed.

Lemma contextual_inactive tool args result pp (s : @st Σ) :
  detect_contextual_patterns R tool args result pp s = (s, Ok []).
Proof.
  unfold detect_contextual_patterns, get_project_tool_usage. case_if; reflexivity.
Qed.

End History.

Section StageTrace.
Context {Σ : Type} (R : router Σ).

(** a call made while a candidate of type [kind] is checked for duplicates:
    its search, or the reinforcement of a near neighbour *)
Definition dup_check_call (kind : string) (c : call) : Prop :=
  exists p, pattern_type p = kind
            /\ (c = CSearch (dup_query p) \/ exists i, c = CRecord (reinforce_request i p)).

(** the candidate has type [kind] and its duplicate search is among [calls] *)
Definition checked_in (kind : string) (calls : list call) (p : pattern) : Prop :=
  pattern_type p = kind /\ In (CSearch (dup_query p)) calls.

(** [m] only makes duplicate-check calls for candidates of type [kind], and
    every candidate it returns was checked by one of them or among [L0] *)
Definition checks_stage (kind : string) (L0 : list call) (m : @M Σ (list pattern)) : Prop :=
  forall s, exists L, log (fst (m s)) = (log s ++ L)%list
                      /\ Forall (dup_check_call kind) L
                      /\ forall a, snd (m s) = Ok a -> Forall (checked_in kind (L0 ++ L)) a.

Lemma checked_in_app_r kind L L' p : checked_in kind L p -> checked_in kind (L ++ L') p.
Proof. intros [Ht Hi]. split; [exact Ht|apply in_or_app; left; exact Hi]. Qed.

Lemma checked_in_new kind L0 p L' :
  pattern_type p = kind -> checked_in kind (L0 ++ CSearch (dup_query p) :: L') p.
Proof. intro Ht. split; [exact Ht|apply in_or_app; right; left; reflexivity]. Qed.

Lemma is_duplicate_calls p (s : @st Σ) :
  exists L', log (fst (is_duplicate_pattern R p s)) = (log s ++ CSearch (dup_query p) :: L')%list
             /\ Forall (dup_check_call (pattern_type p)) (CSearch (dup_query p) :: L').
Proof.
  destruct (is_duplicate_spec R p s) as [s' [E [_ Hl]]]. rewrite E. simpl.
  eexists. split; [exact Hl|].
  constructor; [exists p; split; [reflexivity|left; reflexivity]|].
  destruct (snd (search_op R (svc s) (dup_query p))); [|constructor].
  destruct (find _ _); repeat constructor.
  exists p. split; [reflexivity|right; eexists; reflexivity].
Qed.

Lemma ret_stage kind L0 (acc : list pattern) :
  Forall (checked_in kind L0) acc -> checks_stage kind L0 (ret acc).
Proof.
  intros H s. exists []. rewrite !app_nil_r. split; [reflexivity|split; [constructor|]].
  intros a E. injection E as <-. exact H.
Qed.

Lemma raise_stage kind L0 e : checks_stage kind L0 (raise e).
Proof.
  intro s. exists []. rewrite app_nil_r. split; [reflexivity|split; [constructor|]].
  intros a E. discriminate E.
Qed.

(** one duplicate check, then the rest of the extractor's loop *)
Lemma dup_then_stage kind L0 p (k : bool -> @M Σ (list pattern)) :
  pattern_type p = kind ->
  (forall b L', checks_stage kind (L0 ++ CSearch (dup_query p) :: L') (k b)) ->
  checks_stage kind L0 (bind (is_duplicate_pattern R p) k).
Proof.
  intros Hp Hk s. unfold bind.
  destruct (is_duplicate_calls p s) as [L' [HL FL]]. rewrite Hp in FL.
  destruct (is_duplicate_pattern R p s) as [s1 [b|e]]; simpl in HL.
  - destruct (Hk b L' s1) as [L2 [H2 [F2 Q2]]].
    exists (CSearch (dup_query p) :: L' ++ L2)%list. split; [|split].
    + rewrite H2, HL, <- app_assoc. reflexivity.
    + rewrite app_comm_cons. apply Forall_app. split; assumption.
    + intros a Ea. rewrite app_comm_cons, app_assoc. exact (Q2 a Ea).
  - exists (CSearch (dup_query p) :: L')%list. split; [exact HL|split; [exact FL|]].
    intros a Ea. discriminate Ea.
Qed.

Lemma keep_then_stage kind L0 p acc (k : list pattern -> @M Σ (list pattern)) :
  pattern_type p = kind -> Forall (checked_in kind L0) acc ->
  (forall L0' acc', Forall (checked_in kind L0') acc' -> checks_stage kind L0' (k acc')) ->
  checks_stage kind L0 (bind (keep_if_new R p acc) k).
Proof.
  intros Hp Hacc Hk. unfold keep_if_new.
  intro s. unfold bind at 1. fold (@bind Σ).
  assert (Hb : checks_stage kind L0
                 (bind (is_duplicate_pattern R p)
                    (fun dup => bind (if dup then ret acc else ret (acc ++ [p])%list) k))).
  { apply dup_then_stage; [exact Hp|]. intros [] L'; unfold bind at 1; intro s1; simpl.
    - apply Hk. apply Forall_impl with (P := checked_in kind L0); [|exact Hacc].
      intros q. apply checked_in_app_r.
    - apply Hk. apply Forall_app. split.
      + apply Forall_impl with (P := checked_in kind L0); [|exact Hacc].
        intros q. apply checked_in_app_r.
      + constructor; [apply checked_in_new; exact Hp|constructor]. }
  destruct (Hb s) as [L [H1 [H2 H3]]]. exists L.
  unfold bind in H1, H3 |- *. destruct (is_duplicate_pattern R p s) as [s1 [[]|e]];
    simpl in *; auto.
Qed.

Lemma corrections_loop_stage cands seen acc L0 :
  Forall (fun dp => pattern_type (snd dp) = "correction") cands ->
  Forall (checked_in "correction" L0) acc ->
  checks_stage "correction" L0 (corrections_loop R cands seen acc).
Proof.
  revert seen acc L0.
  induction cands as [|[d p] cands IH]; intros seen acc L0 Hc Hacc; simpl.
  - apply ret_stage. exact Hacc.
  - inversion Hc as [|? ? Hp Hc']; subst. simpl in Hp.
    destruct (existsb _ _); [apply IH; assumption|].
    apply dup_then_stage; [exact Hp|]. intros [] L'.
    + apply IH; [exact Hc'|].
      apply Forall_impl with (P := checked_in "correction" L0); [|exact Hacc].
      intros q. apply checked_in_app_r.
    + apply IH; [exact Hc'|]. apply Forall_app. split.
      * apply Forall_impl with (P := checked_in "correction" L0); [|exact Hacc].
        intros q. apply checked_in_app_r.
      * constructor; [apply checked_in_new; exact Hp|constructor].
Qed.

Lemma correction_candidates_type tool args result :
  Forall (fun dp => pattern_type (snd dp) = "correction") (correction_candidates tool args result).
Proof.
  apply Forall_forall. intros x Hx. unfold correction_candidates in Hx.
  apply in_flat_map in Hx as [ct [_ Hx]]. unfold correction_candidate in Hx.
  destruct (correction_tools _ _ _). destruct (_ || _); simpl in Hx; [|contradiction].
  destruct Hx as [<-|[]]. reflexivity.
Qed.

Lemma tool_words_loop_stage tool command words acc L0 :
  Forall (checked_in "tool_preference" L0) acc ->
  checks_stage "tool_preference" L0 (tool_words_loop R tool command words acc).
Proof.
  revert acc L0. induction words as [|w words IH]; intros acc L0 Hacc; simpl.
  - apply ret_stage. exact Hacc.
  - destruct (Py.contains w (Py.lower command)); [|apply IH; exact Hacc].
    apply keep_then_stage; [reflexivity|exact Hacc|]. intros L0' acc' H. apply IH. exact H.
Qed.

Lemma detect_tool_preferences_stage tool args result :
  checks_stage "tool_preference" [] (detect_tool_preferences R tool args result).
Proof.
  unfold detect_tool_preferences. case_if; [|apply ret_stage; constructor].
  destruct (Py.get _ _ _); try apply raise_stage.
  case_if; [|apply ret_stage; constructor].
  apply tool_words_loop_stage. constructor.
Qed.

Lemma store_all_log ps acc (s : @st Σ) :
  log (fst (store_all R ps acc s))
  = (log s ++ map (fun p => CStore (store_request p)) ps)%list.
Proof.
  revert acc s. induction ps as [|p ps IH]; intros acc s; simpl.
  - rewrite app_nil_r. reflexivity.
  - unfold bind, store_pattern_semantically, try_with, router_store.
    destruct (store_op R (svc s) (store_request p)) as [σ [[i|]|]]; simpl;
      [case_if| |]; rewrite IH; simpl; rewrite <- app_assoc; reflexivity.
Qed.

End StageTrace.

(** C7: in a pass admitted by the rate limiter that returns normally, the
    extractors run in the order correction, workflow, tool preference,
    context. Each runs its own duplicate checks while it runs: the calls made
    between two steps are the searches and reinforcements of that step's
    candidates only, and every candidate a step returns had its duplicate
    search there. The candidates the steps return are then stored, one
    [store_pattern] request each, in that same order. *)
Theorem extractor_stage_order {Σ : Type} (R : router Σ) tool args result pp now
  (s : @st Σ) (l : list pattern) :
  snd (check_rate_limit now s) = Ok true ->
  snd (extract_patterns R tool args result pp now s) = Ok l ->
  exists L1 L2 L3 L4 c w t x,
    log (fst (extract_patterns R tool args result pp now s))
    = (log s ++ CStage SCorrection :: L1 ++ CStage SWorkflow :: L2
       ++ CStage SToolPreference :: L3 ++ CStage SContext :: L4
       ++ map (fun p => CStore (store_request p)) (c ++ w ++ t ++ x))%list
    /\ Forall (dup_check_call "correction") L1 /\ Forall (dup_check_call "workflow") L2
    /\ Forall (dup_check_call "tool_preference") L3 /\ Forall (dup_check_call "context") L4
    /\ Forall (checked_in "correction" L1) c /\ Forall (checked_in "workflow" L2) w
    /\ Forall (checked_in "tool_preference" L3) t /\ Forall (checked_in "context" L4) x.
Proof.
  intros Hc Hok. revert Hok. unfold extract_patterns.
  rewrite (bind_ok_first _ _ _ _ Hc). cbv beta iota delta [negb].
  rewrite <- (check_rate_limit_log now s).
  generalize (fst (check_rate_limit now s)). intro s0.
  unfold bind, emit. cbv beta iota.
  match goal with |- context [detect_semantic_corrections R tool args result ?s1] =>
    destruct (corrections_loop_stage R (correction_candidates tool args result) [] [] []
                (correction_candidates_type tool args result) (Forall_nil _) s1)
      as [L1 [H1 [F1 Q1]]];
    unfold detect_semantic_corrections in *;
    destruct (corrections_loop R (correction_candidates tool args result) [] [] s1)
      as [s2 [c|e]]; [|intro E; discriminate E]
  end.
  simpl in H1. specialize (Q1 c eq_refl). cbv beta iota.
  rewrite workflow_inactive. cbv beta iota.
  match goal with |- context [detect_tool_preferences R tool args result ?s3] =>
    destruct (detect_tool_preferences_stage R tool args result s3) as [L3 [H3 [F3 Q3]]];
    destruct (detect_tool_preferences R tool args result s3)
      as [s4 [t|e]]; [|intro E; discriminate E]
  end.
  simpl in H3. specialize (Q3 t eq_refl). cbv beta iota.
  rewrite contextual_inactive. cbv beta iota. intros _.
  exists L1, [], L3, [], c, [], t, [].
  rewrite store_all_log, H3, H1. simpl. repeat rewrite <- app_assoc. simpl.
  split; [reflexivity|].
  repeat split; solve [assumption | constructor].
Qed.

Lemma extractor_stage_order_witness :
  snd (@check_rate_limit unit 0%Z empty_st) = Ok true
  /\ snd uv_run = Ok uv_patterns
  /\ exists L1 L2 L3 L4 c w t x,
    log (fst uv_run)
    = (log empty_st ++ CStage SCorrection :: L1 ++ CStage SWorkflow :: L2
       ++ CStage SToolPreference :: L3 ++ CStage SContext :: L4
       ++ map (fun p => CStore (store_request p)) (c ++ w ++ t ++ x))%list
    /\ Forall (dup_check_call "correction") L1 /\ Forall (dup_check_call "workflow") L2
    /\ Forall (dup_check_call "tool_preference") L3 /\ Forall (dup_check_call "context") L4
    /\ Forall (checked_in "correction" L1) c /\ Forall (checked_in "workflow" L2) w
    /\ Forall (checked_in "tool_preference" L3) t /\ Forall (checked_in "context" L4) x.
Proof.
  split; [vm_compute; reflexivity|]. split; [vm_compute; reflexivity|].
  apply (extractor_stage_order quiet_router "Bash" uv_args uv_result EmptyString 0%Z
           empty_st uv_patterns); vm_compute; reflexivity.
Defined.

(** C7, as stated with tool preference before workflow, fails: on the
    scenario-1 event the workflow step runs before the tool-preference step. *)
Lemma extractor_order_counterexample :
  stages_of (log (fst uv_run)) = [SCorrection; SWorkflow; SToolPreference; SContext]
  /\ stages_of (log (fst uv_run)) <> [SCorrection; SToolPreference; SWorkflow; SContext].
Proof. vm_compute. split; [reflexivity|discriminate]. Qed.

(** ** C5: the rate limiter *)

(** one call of [extract_patterns]: its arguments and its clock reading *)
Record event : Type := mkEvent {
  ev_tool : string; ev_args : Py.dict; ev_result : Py.pyval;
  ev_project_path : string; ev_now : Z }.

Section RateLimit.
Context {Σ : Type} (R : router Σ).

(** a sequence of calls on one extractor: for each call, whether
    [_check_rate_limit] admitted it, and what [extract_patterns] returned *)
Fixpoint run_calls (evs : list event) (s : @st Σ) : list (bool * res (list pattern)) :=
  match evs with
  | [] => []
  | e :: rest =>
      let admitted := match snd (check_rate_limit (ev_now e) s) with
                      | Ok b => b | Err _ => false end in
      let (s', r) := extract_patterns R (ev_tool e) (ev_args e) (ev_result e)
                       (ev_project_path e) (ev_now e) s in
      (admitted, r) :: run_calls rest s'
  end.

Definition keeps_stamps {A} (m : @M Σ A) : Prop := forall s, stamps (fst (m s)) = stamps s.

Lemma inert_keeps {A} (m : @M Σ A) : inert m -> keeps_stamps m.
Proof. intros H s. apply H. Qed.

Lemma emit_keeps (c : call) : keeps_stamps (@emit Σ c).
Proof. intro s. reflexivity. Qed.

Lemma bind_keeps {A B} (m : @M Σ A) (f : A -> @M Σ B) :
  keeps_stamps m -> (forall a, keeps_stamps (f a)) -> keeps_stamps (bind m f).
Proof.
  intros Hm Hf s. unfold bind. specialize (Hm s).
  destruct (m s) as [s1 [a|e]]; simpl in *; [rewrite Hf|]; exact Hm.
Qed.

Lemma extract_stamps tool args result pp now (s : @st Σ) :
  stamps (fst (extract_patterns R tool args result pp now s))
  = stamps (fst (check_rate_limit now s)).
Proof.
  unfold extract_patterns, bind at 1.
  destruct (check_rate_limit now s) as [s1 [[]|e]]; cbv beta iota delta [negb]; cbn [fst];
    [|reflexivity|reflexivity].
  repeat (apply bind_keeps; [first [apply emit_keeps | apply inert_keeps] | intros ?]).
  all: try apply inert_keeps.
  all: first [apply corrections_loop_inert | apply detect_workflow_inert
             | apply detect_tool_preferences_inert | apply detect_contextual_inert
             | apply store_all_inert].
Qed.

Lemma extract_rejected tool args result pp now (s : @st Σ) :
  snd (check_rate_limit now s) = Ok false ->
  extract_patterns R tool args result pp now s = (fst (check_rate_limit now s), Ok []).
Proof.
  intro H. unfold extract_patterns, bind at 1.
  destruct (check_rate_limit now s) as [s1 r]. simpl in H. subst r. reflexivity.
Qed.

End RateLimit.

(** the stamps at or after [a] *)
Definition count_from (a : Z) (l : list Z) : nat := length (filter (fun t => (a <=? t)%Z) l).

Lemma count_from_filter (a : Z) (p : Z -> bool) (l : list Z) :
  (forall t, (a <= t)%Z -> p t = true) -> count_from a (filter p l) = count_from a l.
Proof.
  intro Hp. unfold count_from. induction l as [|t l IH]; [reflexivity|]. simpl.
  destruct (Z.leb_spec a t) as [Ht|Ht].
  - rewrite (Hp t Ht). simpl. apply Z.leb_le in Ht. rewrite Ht. simpl. f_equal. exact IH.
  - destruct (p t); simpl; [apply Z.leb_gt in Ht; rewrite Ht|]; exact IH.
Qed.

Lemma count_from_le (a : Z) (l : list Z) : (count_from a l <= length l)%nat.
Proof.
  unfold count_from. induction l as [|t l IH]; simpl; [lia|].
  destruct (a <=? t)%Z; simpl; lia.
Qed.

Lemma count_from_snoc (a now : Z) (l : list Z) :
  (a <= now)%Z -> count_from a (l ++ [now])%list = S (count_from a l).
Proof.
  intro H. unfold count_from. rewrite filter_app, length_app. simpl.
  apply Z.leb_le in H. rewrite H. simpl. lia.
Qed.

Lemma check_rate_limit_cases {Σ : Type} (now : Z) (s : @st Σ) :
  let kept := filter (fun ts => (now - RATE_LIMIT_WINDOW <? ts)%Z) (stamps s) in
  ((MAX_PATTERNS_PER_MINUTE <= length kept)%nat
   /\ check_rate_limit now s = (mkst (svc s) (log s) kept, Ok false))
  \/ ((length kept < MAX_PATTERNS_PER_MINUTE)%nat
      /\ check_rate_limit now s = (mkst (svc s) (log s) (kept ++ [now])%list, Ok true)).
Proof.
  intro kept. unfold check_rate_limit. cbv zeta. subst kept.
  match goal with |- context [if ?c then _ else _] => destruct c eqn:E end.
  - left. split; [apply Nat.leb_le; exact E|reflexivity].
  - right. split; [apply Nat.leb_gt; exact E|reflexivity].
Qed.

Lemma rate_limit_go {Σ : Type} (R : router Σ) (a : Z) (evs : list event) :
  Forall (fun e => (a <= ev_now e < a + RATE_LIMIT_WINDOW)%Z) evs ->
  forall s : @st Σ,
  (count_from a (stamps s) <= 100)%nat ->
  (100 < count_from a (stamps s) + length evs)%nat ->
  exists k, (k <= 100 - count_from a (stamps s))%nat
            /\ nth_error (run_calls R evs s) k = Some (false, Ok []).
Proof.
  induction 1 as [|e evs He Hevs IH]; intros s Hc Hlen; simpl in Hlen; [lia|].
  simpl run_calls.
  assert (Hkept : count_from a (filter (fun ts => (ev_now e - RATE_LIMIT_WINDOW <? ts)%Z)
                                        (stamps s)) = count_from a (stamps s)).
  { apply count_from_filter. intros t Ht. apply Z.ltb_lt. lia. }
  pose proof (count_from_le a (filter (fun ts => (ev_now e - RATE_LIMIT_WINDOW <? ts)%Z)
                                      (stamps s))) as Hle.
  pose proof (extract_stamps R (ev_tool e) (ev_args e) (ev_result e) (ev_project_path e)
                (ev_now e) s) as Hst.
  destruct (check_rate_limit_cases (ev_now e) s) as [[Hmax Hchk]|[Hmax Hchk]];
    rewrite Hchk in Hst |- *; cbn [snd fst] in Hst |- *.
  - exists 0%nat. split; [lia|].
    rewrite (extract_rejected R); rewrite Hchk; reflexivity.
  - destruct (extract_patterns R (ev_tool e) (ev_args e) (ev_result e) (ev_project_path e)
                (ev_now e) s) as [s' r].
    cbn [fst stamps] in Hst.
    assert (Hc' : count_from a (stamps s') = S (count_from a (stamps s))).
    { rewrite Hst, count_from_snoc by lia. f_equal. exact Hkept. }
    unfold MAX_PATTERNS_PER_MINUTE in Hmax.
    destruct (IH s') as [k [Hk Hnth]]; [lia|lia|].
    exists (S k). split; [lia|exact Hnth].
Qed.

Lemma run_calls_rejected {Σ : Type} (R : router Σ) (evs : list event) :
  forall (s : @st Σ) k r,
  nth_error (run_calls R evs s) k = Some (false, r) -> r = Ok [].
Proof.
  induction evs as [|e evs IH]; intros s k r H; [destruct k; discriminate|].
  simpl in H.
  destruct (check_rate_limit_cases (ev_now e) s) as [[_ Hchk]|[_ Hchk]];
    rewrite Hchk in H; cbn [snd] in H.
  - rewrite (extract_rejected R) in H by (rewrite Hchk; reflexivity).
    destruct k; simpl in H; [congruence|eapply IH; exact H].
  - destruct (extract_patterns R _ _ _ _ _ s) as [s' r'].
    destruct k; simpl in H; [discriminate|eapply IH; exact H].
Qed.

(** C5 (as amended): if more than [MAX_PATTERNS_PER_MINUTE = 100] calls of
    [extract_patterns] on one extractor all read the clock within one
    60-second window, then one of the first 101 of them is refused by
    [_check_rate_limit]; and every refused call returns the plain empty list
    (not an error) and makes no router call, whatever the earlier state. *)
Theorem rate_limit_rejects_within_window {Σ : Type} (R : router Σ) (a : Z)
  (evs : list event) (s : @st Σ) :
  Forall (fun e => (a <= ev_now e < a + RATE_LIMIT_WINDOW)%Z) evs ->
  (MAX_PATTERNS_PER_MINUTE < length evs)%nat ->
  (exists k, (k <= MAX_PATTERNS_PER_MINUTE)%nat
             /\ nth_error (run_calls R evs s) k = Some (false, Ok []))
  /\ (forall k r, nth_error (run_calls R evs s) k = Some (false, r) -> r = Ok [])
  /\ (forall tool args result pp now (s0 : @st Σ),
        snd (check_rate_limit now s0) = Ok false ->
        extract_patterns R tool args result pp now s0 = (fst (check_rate_limit now s0), Ok [])
        /\ log (fst (check_rate_limit now s0)) = log s0).
Proof.
  intros Hw Hlen. unfold MAX_PATTERNS_PER_MINUTE in *. split; [|split].
  - destruct (Nat.le_gt_cases (count_from a (stamps s)) 100) as [Hc|Hc].
    + destruct (rate_limit_go R a evs Hw s Hc) as [k [Hk Hnth]]; [lia|].
      exists k. split; [lia|exact Hnth].
    + destruct Hw as [|e evs He _]; simpl in Hlen; [lia|].
      exists 0%nat. split; [lia|]. simpl.
      assert (Hkept : count_from a (filter (fun ts => (ev_now e - RATE_LIMIT_WINDOW <? ts)%Z)
                                            (stamps s)) = count_from a (stamps s)).
      { apply count_from_filter. intros t Ht. apply Z.ltb_lt. lia. }
      pose proof (count_from_le a (filter (fun ts => (ev_now e - RATE_LIMIT_WINDOW <? ts)%Z)
                                          (stamps s))) as Hle.
      destruct (check_rate_limit_cases (ev_now e) s) as [[_ Hchk]|[Hmax _]];
        [|unfold MAX_PATTERNS_PER_MINUTE in Hmax; lia].
      rewrite Hchk. cbn [snd].
      rewrite (extract_rejected R) by (rewrite Hchk; reflexivity). reflexivity.
  - apply run_calls_rejected.
  - intros tool args result pp now s0 H. split; [apply extract_rejected; exact H|].
    apply check_rate_limit_log.
Qed.

Definition quiet_event : event := mkEvent "Read" [] (Py.PStr "ok") EmptyString 0%Z.

Lemma rate_limit_rejects_within_window_witness :
  exists k, (k <= MAX_PATTERNS_PER_MINUTE)%nat
            /\ nth_error (run_calls quiet_router (repeat quiet_event 101) empty_st) k
               = Some (false, Ok []).
Proof.
  apply (rate_limit_rejects_within_window quiet_router 0%Z (repeat quiet_event 101) empty_st).
  - apply Forall_forall. intros x Hx. apply repeat_spec in Hx. subst x.
    unfold RATE_LIMIT_WINDOW. simpl. lia.
  - vm_compute. reflexivity.
Defined.

(** C5, as stated, fails: a refused call carries no [RateLimited] reason.
    Its result is the plain empty list, the same value an admitted pass
    that finds nothing returns. *)
Lemma rate_limit_reason_counterexample :
  let full := mkst tt [] (repeat 0%Z 100) in
  snd (@check_rate_limit unit 0%Z full) = Ok false
  /\ snd (@check_rate_limit unit 0%Z empty_st) = Ok true
  /\ snd (extract_patterns quiet_router "Read" [] (Py.PStr "ok") EmptyString 0%Z full)
     = snd (extract_patterns quiet_router "Read" [] (Py.PStr "ok") EmptyString 0%Z empty_st)
  /\ snd (extract_patterns quiet_router "Read" [] (Py.PStr "ok") EmptyString 0%Z full) = Ok [].
Proof. vm_compute. repeat split. Qed.

(** ** C6: end-to-end scenario 1 *)

(** [_detect_semantic_corrections] when no candidate is a duplicate *)
Fixpoint corrections_pure (cands : list (string * pattern)) (seen : list string)
  (acc : list pattern) : list pattern :=
  match cands with
  | [] => acc
  | (d, p) :: rest =>
      if existsb (String.eqb d) seen then corrections_pure rest seen acc
      else corrections_pure rest (d :: seen) (acc ++ [p])%list
  end.

(** the tool-word loop of [_detect_tool_preferences] when no candidate is a duplicate *)
Fixpoint tool_words_pure (tool command : string) (words : list string)
  (acc : list pattern) : list pattern :=
  match words with
  | [] => acc
  | w :: rest =>
      if Py.contains w (Py.lower command) then
        let cat := classify_tool_category w EmptyString in
        tool_words_pure tool command rest
          (acc ++ [mkPattern "tool_preference" cat ("use " ++ w ++ " for " ++ cat)
                     ("tool preference: " ++ w ++ " for " ++ cat ++ " package management")
                     (5 # 10)
                     [("tool", Py.PStr w); ("command", Py.PStr command);
                      ("action", Py.PStr "package_management")]
                     tool EmptyString None])%list
      else tool_words_pure tool command rest acc
  end.

(** [q] is [p] as stored under some id *)
Definition stored (p q : pattern) : Prop := exists i, q = with_pattern_id p i.

Definition uv_candidates : list pattern :=
  (corrections_pure (correction_candidates "Bash" uv_args uv_result) [] []
   ++ tool_words_pure "Bash" "pip install requests" TOOL_WORDS [])%list.

Lemma bind_snd {Σ A B} (m : @M Σ A) (f : A -> @M Σ B) (s : @st Σ) (a : A) :
  snd (m s) = Ok a -> snd (bind m f s) = snd (f a (fst (m s))).
Proof. intro H. unfold bind. destruct (m s) as [s1 r]. simpl in H. subst r. reflexivity. Qed.

Section NoDuplicates.
Context {Σ : Type} (R : router Σ).
Hypothesis no_near : forall σ q,
  match snd (search_op R σ q) with
  | Some sims => existsb (fun n => qlt (9 # 10) (n_similarity n)) sims = false
  | None => True
  end.
Hypothesis store_ok : forall σ q,
  exists i, snd (store_op R σ q) = Some (Some i) /\ Py.truthy (Some i) = true.

Lemma is_duplicate_false (p : pattern) (s : @st Σ) :
  snd (is_duplicate_pattern R p s) = Ok false.
Proof.
  destruct (is_duplicate_spec R p s) as [s' [E _]]. rewrite E. simpl.
  specialize (no_near (svc s) (dup_query p)).
  destruct (snd (search_op R (svc s) (dup_query p))); [rewrite no_near|]; reflexivity.
Qed.

Lemma keep_if_new_val (p : pattern) (acc : list pattern) (s : @st Σ) :
  snd (keep_if_new R p acc s) = Ok (acc ++ [p])%list.
Proof. unfold keep_if_new. rewrite (bind_snd _ _ _ _ (is_duplicate_false p s)). reflexivity. Qed.

Lemma corrections_loop_val cands seen acc (s : @st Σ) :
  snd (corrections_loop R cands seen acc s) = Ok (corrections_pure cands seen acc).
Proof.
  revert seen acc s. induction cands as [|[d p] cands IH]; intros seen acc s; [reflexivity|].
  simpl. destruct (existsb _ _); [apply IH|].
  rewrite (bind_snd _ _ _ _ (is_duplicate_false p s)). apply IH.
Qed.

Lemma tool_words_val tool command words acc (s : @st Σ) :
  snd (tool_words_loop R tool command words acc s)
  = Ok (tool_words_pure tool command words acc).
Proof.
  revert acc s. induction words as [|w words IH]; intros acc s; [reflexivity|].
  simpl. case_if; [|apply IH].
  rewrite (bind_snd _ _ _ _ (keep_if_new_val _ acc s)). apply IH.
Qed.

Lemma store_all_val ps acc (s : @st Σ) :
  exists out, snd (store_all R ps acc s) = Ok (acc ++ out)%list /\ Forall2 stored ps out.
Proof.
  revert acc s. induction ps as [|p ps IH]; intros acc s.
  - exists []. rewrite app_nil_r. split; [reflexivity|constructor].
  - simpl. unfold bind at 1, store_pattern_semantically, try_with, router_store.
    destruct (store_ok (svc s) (store_request p)) as [i [Hi Ht]].
    destruct (store_op R (svc s) (store_request p)) as [σ r]. simpl in Hi. subst r.
    cbv beta iota. simpl in Ht. rewrite Ht.
    destruct (IH (acc ++ [with_pattern_id p i])%list
               (mkst σ (log s ++ [CStore (store_request p)])%list (stamps s))) as [out [E F]].
    exists (with_pattern_id p i :: out). rewrite E, <- app_assoc. split; [reflexivity|].
    constructor; [exists i; reflexivity|exact F].
Qed.

Lemma uv_extract_val (pp : string) (now : Z) (s : @st Σ) :
  snd (check_rate_limit now s) = Ok true ->
  exists out, snd (extract_patterns R "Bash" uv_args uv_result pp now s) = Ok out
              /\ Forall2 stored uv_candidates out.
Proof.
  intro Hc. unfold extract_patterns. rewrite (bind_snd _ _ _ _ Hc).
  cbv beta iota delta [negb].
  rewrite bind_snd with (a := tt) by reflexivity.
  rewrite bind_snd with (a := corrections_pure (correction_candidates "Bash" uv_args uv_result) [] [])
    by apply corrections_loop_val.
  rewrite bind_snd with (a := tt) by reflexivity.
  rewrite bind_snd with (a := []) by reflexivity.
  rewrite bind_snd with (a := tt) by reflexivity.
  rewrite bind_snd with (a := tool_words_pure "Bash" "pip install requests" TOOL_WORDS [])
    by (change (detect_tool_preferences R "Bash" uv_args uv_result)
          with (tool_words_loop R "Bash" "pip install requests" TOOL_WORDS []);
        apply tool_words_val).
  rewrite bind_snd with (a := tt) by reflexivity.
  rewrite bind_snd with (a := [])
    by (unfold detect_contextual_patterns; case_if; reflexivity).
  match goal with |- exists out, snd (store_all R _ [] ?s0) = _ /\ _ =>
    destruct (store_all_val uv_candidates [] s0) as [out [E F]] end.
  exists out. split; [rewrite app_nil_r; exact E|exact F].
Qed.

End NoDuplicates.

Lemma uv_candidates_eval :
  map pattern_type uv_candidates = ["correction"; "tool_preference"]
  /\ map category uv_candidates = ["package-management"; "package-management"]
  /\ map description uv_candidates = ["actually use uv not pip"; "use pip for package-management"]
  /\ map confidence uv_candidates = [8 # 10; 5 # 10]%Q.
Proof. vm_compute. repeat split. Qed.

(** C6: for the event [(Bash, {command: "pip install requests"},
    "Actually, use uv not pip")], a pass admitted by the rate limiter, with a
    similarity service that knows no near neighbour (or fails) and stores
    every pattern, returns exactly one pattern of type [correction]; its
    category is package-management, its confidence at least 0.8 and its
    description contains both "uv" and "pip". *)
Theorem uv_scenario_one_correction {Σ : Type} (R : router Σ) (pp : string) (now : Z)
  (s : @st Σ) :
  (forall σ q,
     match snd (search_op R σ q) with
     | Some sims => existsb (fun n => qlt (9 # 10) (n_similarity n)) sims = false
     | None => True
     end) ->
  (forall σ q, exists i, snd (store_op R σ q) = Some (Some i) /\ Py.truthy (Some i) = true) ->
  snd (check_rate_limit now s) = Ok true ->
  exists l, snd (extract_patterns R "Bash" uv_args uv_result pp now s) = Ok l
    /\ exists p, filter (fun q => String.eqb (pattern_type q) "correction") l = [p]
       /\ category p = "package-management"
       /\ (8 # 10 <= confidence p)%Q
       /\ Py.contains "uv" (description p) = true
       /\ Py.contains "pip" (description p) = true.
Proof.
  intros Hs Ht Hc.
  destruct (uv_extract_val R Hs Ht pp now s Hc) as [out [E F]].
  exists out. split; [exact E|].
  destruct uv_candidates_eval as [Ety [Eca [Ede Eco]]].
  destruct uv_candidates as [|c1 [|c2 [|c3 cs]]]; try discriminate.
  simpl in Ety, Eca, Ede, Eco.
  injection Ety as Ety1 Ety2. injection Eca as Eca1 _.
  injection Ede as Ede1 _. injection Eco as Eco1 _.
  inversion F as [|? q1 ? rest [i1 ->] F1]; subst.
  inversion F1 as [|? q2 ? rest' [i2 ->] F2]; subst.
  inversion F2; subst.
  exists (with_pattern_id c1 i1). simpl. rewrite Ety1, Ety2. simpl.
  split; [reflexivity|]. rewrite Eca1, Ede1, Eco1.
  split; [reflexivity|]. split; [apply Qle_refl|]. split; reflexivity.
Qed.

Lemma uv_scenario_one_correction_witness :
  exists l, snd (extract_patterns quiet_router "Bash" uv_args uv_result EmptyString 0%Z empty_st)
            = Ok l
    /\ exists p, filter (fun q => String.eqb (pattern_type q) "correction") l = [p]
       /\ category p = "package-management"
       /\ (8 # 10 <= confidence p)%Q
       /\ Py.contains "uv" (description p) = true
       /\ Py.contains "pip" (description p) = true.
Proof.
  apply (uv_scenario_one_correction quiet_router EmptyString 0%Z empty_st).
  - intros σ q. reflexivity.
  - intros σ q. exists "p1". split; reflexivity.
  - vm_compute. reflexivity.
Defined.

(** ** C9: the preference listing *)

Definition desc_conf (a b : neighbor) : Prop := (conf_key b <= conf_key a)%Q.

(** the entries whose confidence equals [c], in order *)
Definition with_conf (c : Q) (l : list neighbor) : list neighbor :=
  filter (fun n => Qeq_bool (conf_key n) c) l.

Lemma insert_desc_perm (x : neighbor) (l : list neighbor) : Permutation (insert_desc x l) (x :: l).
Proof.
  induction l as [|y l IH]; simpl; [reflexivity|].
  destruct (qlt _ _); [reflexivity|].
  rewrite IH. apply perm_swap.
Qed.

Lemma insert_desc_sorted (x : neighbor) (l : list neighbor) :
  StronglySorted desc_conf l -> StronglySorted desc_conf (insert_desc x l).
Proof.
  induction 1 as [|y l Hl IH Hy]; simpl.
  - repeat constructor.
  - destruct (qlt (conf_key y) (conf_key x)) eqn:E.
    + apply qlt_true in E. constructor; [constructor; assumption|].
      constructor; [unfold desc_conf; lra|].
      apply Forall_forall. intros z Hz. eapply Forall_forall in Hy; [|exact Hz].
      unfold desc_conf in *. lra.
    + apply qlt_false in E. constructor; [exact IH|].
      apply Forall_forall. intros z Hz.
      apply (Permutation_in _ (insert_desc_perm x l)) in Hz. destruct Hz as [<-|Hz].
      * exact E.
      * eapply Forall_forall in Hy; [|exact Hz]. exact Hy.
Qed.

Lemma with_conf_none (c : Q) (l : list neighbor) :
  Forall (fun z => conf_key z < c)%Q l -> with_conf c l = [].
Proof.
  induction 1 as [|z l Hz _ IH]; [reflexivity|]. unfold with_conf in *. simpl.
  destruct (Qeq_bool (conf_key z) c) eqn:E; [|exact IH].
  apply Qeq_bool_iff in E. lra.
Qed.

Lemma with_conf_cons (c : Q) (x : neighbor) (l : list neighbor) :
  with_conf c (x :: l) = (with_conf c [x] ++ with_conf c l)%list.
Proof. unfold with_conf. simpl. destruct (Qeq_bool (conf_key x) c); reflexivity. Qed.

Lemma insert_desc_with_conf (c : Q) (x : neighbor) (l : list neighbor) :
  StronglySorted desc_conf l ->
  with_conf c (insert_desc x l) = (with_conf c l ++ with_conf c [x])%list.
Proof.
  induction 1 as [|y l Hl IH Hy]; [reflexivity|]. simpl insert_desc.
  destruct (qlt (conf_key y) (conf_key x)) eqn:E.
  - apply qlt_true in E. rewrite (with_conf_cons c x (y :: l)).
    destruct (Qeq_bool (conf_key x) c) eqn:Ex.
    + apply Qeq_bool_iff in Ex.
      assert (Hn : with_conf c (y :: l) = []).
      { apply with_conf_none. constructor; [lra|].
        apply Forall_forall. intros z Hz. eapply Forall_forall in Hy; [|exact Hz].
        unfold desc_conf in Hy. lra. }
      rewrite Hn, app_nil_r. reflexivity.
    + unfold with_conf at 1 3. simpl. rewrite Ex. rewrite app_nil_r. reflexivity.
  - unfold with_conf in *. simpl. rewrite IH.
    destruct (Qeq_bool (conf_key y) c); reflexivity.
Qed.

Lemma sort_fold_spec (xs acc : list neighbor) :
  StronglySorted desc_conf acc ->
  Permutation (fold_left (fun acc x => insert_desc x acc) xs acc) (acc ++ xs)
  /\ StronglySorted desc_conf (fold_left (fun acc x => insert_desc x acc) xs acc)
  /\ forall c, with_conf c (fold_left (fun acc x => insert_desc x acc) xs acc)
               = (with_conf c acc ++ with_conf c xs)%list.
Proof.
  revert acc. induction xs as [|x xs IH]; intros acc Hs; cbn [fold_left].
  - rewrite app_nil_r. split; [reflexivity|]. split; [exact Hs|].
    intro c. rewrite app_nil_r. reflexivity.
  - destruct (IH (insert_desc x acc) (insert_desc_sorted x acc Hs)) as [Hp [Hs' Hw]].
    split; [|split; [exact Hs'|]].
    + eapply Permutation_trans; [exact Hp|].
      eapply Permutation_trans; [apply Permutation_app_tail, insert_desc_perm|].
      apply Permutation_middle.
    + intro c. rewrite Hw, insert_desc_with_conf by exact Hs.
      rewrite (with_conf_cons c x xs), <- app_assoc. reflexivity.
Qed.

(** C9 (as amended): [get_learned_preferences] asks the router for at most
    50 neighbours; when the search fails it returns the empty list.
    Otherwise it keeps the neighbours [is_preference] accepts (type
    correction or tool_preference when the metadata is a dict, and any
    whose text mentions preference, correction, use or prefer when it is
    not), sorted by confidence, highest first, with no frequency tie-break:
    entries of equal confidence keep the order the search returned them in. *)
Theorem learned_preferences_order {Σ : Type} (R : router Σ) (cat : option string)
  (min_confidence : Q) (s : @st Σ) :
  let query := if Py.truthy cat then "preferences for " ++ Py.fmt_opt cat
               else "learned preferences" in
  match snd (search_op R (svc s) (mkSearch query 50 min_confidence cat)) with
  | None => snd (get_learned_preferences R cat min_confidence s) = Ok []
  | Some sims =>
      exists out, snd (get_learned_preferences R cat min_confidence s) = Ok out
        /\ Permutation out (filter is_preference sims)
        /\ Sorted desc_conf out
        /\ forall c, with_conf c out = with_conf c (filter is_preference sims)
  end.
Proof.
  cbv zeta. unfold get_learned_preferences, try_with, bind, router_search.
  destruct (search_op R (svc s) _) as [σ [sims|]]; simpl; [|reflexivity].
  destruct (sort_fold_spec (filter is_preference sims) [] (SSorted_nil _)) as [Hp [Hs Hw]].
  eexists. split; [reflexivity|]. split; [|split].
  - exact Hp.
  - apply StronglySorted_Sorted. exact Hs.
  - intro c. rewrite Hw. reflexivity.
Qed.

(** C9, as stated, fails: a neighbour whose metadata is not a dict is kept
    on its text alone, and of two preferences with equal confidence the one
    with the lower frequency comes first when the search returned it first. *)
Lemma learned_preferences_counterexample :
  let n1 := mkNeighbor "a" "use uv" (95 # 100) (Some (8 # 10)) 1%Z
              (MDict [("pattern_type", Py.PStr "correction")]) in
  let n2 := mkNeighbor "b" "use pnpm" (95 # 100) (Some (8 # 10)) 5%Z
              (MDict [("pattern_type", Py.PStr "tool_preference")]) in
  let n3 := mkNeighbor "c" "use conda" (95 # 100) (Some (9 # 10)) 1%Z (MOther Py.PNone) in
  let R := mkRouter (fun (σ : unit) _ => (σ, Some [n1; n2; n3])) (fun σ _ => (σ, None))
                    (fun σ _ => (σ, false)) in
  snd (get_learned_preferences R None (7 # 10) empty_st) = Ok [n3; n1; n2]
  /\ n_metadata n3 = MOther Py.PNone
  /\ (n_frequency n1 < n_frequency n2)%Z
  /\ conf_key n1 = conf_key n2.
Proof. vm_compute. repeat split. Qed.

(** ** C2: reinforcement, with the router's [record_outcome] after the spec *)

Import SpecRouter.

Lemma qmin_cases (a b : Q) : ((b < a)%Q /\ qmin a b = b) \/ ((a <= b)%Q /\ qmin a b = a).
Proof.
  unfold qmin. destruct (qlt b a) eqn:E.
  - left. split; [apply qlt_true; exact E|reflexivity].
  - right. split; [apply qlt_false; exact E|reflexivity].
Qed.

Lemma find_entry_update (l : list entry) (i : string) (f : entry -> entry) (e : entry) :
  find (fun e => String.eqb (e_id e) i) l = Some e ->
  (forall x, e_id (f x) = e_id x) ->
  find (fun e => String.eqb (e_id e) i)
       (map (fun x => if String.eqb (e_id x) i then f x else x) l) = Some (f e).
Proof.
  intros H Hf. induction l as [|x l IH]; [discriminate|]. simpl in *.
  destruct (String.eqb (e_id x) i) eqn:E.
  - injection H as ->. rewrite Hf, E. reflexivity.
  - rewrite E. apply IH. exact H.
Qed.

(** C2: reinforcing the stored entry [i] from a candidate whose confidence
    lies in [0, 0.9] (every extractor's candidate does) raises the entry's
    confidence by 0.1, capped at 1.0, increments its frequency by exactly 1
    and refreshes its last-seen time; for an entry whose confidence lies in
    [0, 1] the confidence never decreases. *)
Theorem reinforcement_step search store (i : string) (p : pattern) (rs : rstate)
  (lg : list call) (ts : list Z) (e : entry) :
  find_entry rs i = Some e ->
  (0 <= confidence p <= 9 # 10)%Q ->
  (0 <= e_confidence e <= 1)%Q ->
  exists e',
    find_entry (svc (fst (reinforce_existing_pattern (spec_router search store) i p
                            (mkst rs lg ts)))) i = Some e'
    /\ (e_confidence e' == qmin 1 (e_confidence e + (1 # 10)))%Q
    /\ e_frequency e' = (e_frequency e + 1)%Z
    /\ e_last_seen e' = clock rs
    /\ (e_confidence e <= e_confidence e')%Q.
Proof.
  intros Hf Hp He.
  unfold reinforce_existing_pattern, try_with, router_record. simpl.
  unfold find_entry in *. simpl.
  erewrite find_entry_update; [|exact Hf|reflexivity].
  eexists. split; [reflexivity|]. simpl.
  set (step := (qmin 1 (confidence p + (1 # 10)) - confidence p)%Q).
  assert (Hstep : (step == 1 # 10)%Q).
  { unfold step. destruct (qmin_cases 1 (confidence p + (1 # 10))) as [[H ->]|[H ->]]; lra. }
  split; [|split; [reflexivity|split; [reflexivity|]]].
  - destruct (qmin_cases 1 (e_confidence e + step)) as [[H1 ->]|[H1 ->]];
      destruct (qmin_cases 1 (e_confidence e + (1 # 10))) as [[H2 ->]|[H2 ->]]; lra.
  - destruct (qmin_cases 1 (e_confidence e + step)) as [[H1 ->]|[H1 ->]]; lra.
Qed.

Lemma reinforcement_step_witness :
  let search := fun (rs : rstate) (_ : search_query) => (rs, Some (@nil neighbor)) in
  let store := fun (rs : rstate) (_ : store_req) => (rs, Some (Some "p1")) in
  let p := mkPattern "correction" "package-management" "prefer uv over pip"
             "correction: prefer uv over pip for package-management" (8 # 10) []
             "Bash" EmptyString None in
  let rs := mkRState [mkEntry "p7" (95 # 100) 3%Z 0%Z] 10%Z in
  exists e',
    find_entry (svc (fst (reinforce_existing_pattern (spec_router search store) "p7" p
                            (mkst rs [] [])))) "p7" = Some e'
    /\ (e_confidence e' == qmin 1 ((95 # 100) + (1 # 10)))%Q
    /\ e_frequency e' = 4%Z
    /\ e_last_seen e' = 10%Z
    /\ ((95 # 100) <= e_confidence e')%Q.
Proof.
  intros search store p rs.
  apply (reinforcement_step search store "p7" p rs [] [] (mkEntry "p7" (95 # 100) 3%Z 0%Z)).
  - reflexivity.
  - split; vm_compute; discriminate.
  - split; vm_compute; discriminate.
Defined.

(* ================================================================== *)
(** * Further properties of the extractor and the capture hook *)

(** ** Strings: append, reversal, stripping *)

Lemma string_app_nil_r (a : string) : (a ++ EmptyString)%string = a.
Proof. induction a as [|c a IH]; simpl; congruence. Qed.

Lemma string_app_assoc (a b c : string) : ((a ++ b) ++ c)%string = (a ++ (b ++ c))%string.
Proof. induction a as [|x a IH]; simpl; congruence. Qed.

Lemma string_app_length (a b : string) :
  String.length (a ++ b) = (String.length a + String.length b)%nat.
Proof. induction a as [|x a IH]; simpl; congruence. Qed.

Lemma rev_string_app (a b : string) :
  Py.rev_string (a ++ b) = (Py.rev_string b ++ Py.rev_string a)%string.
Proof.
  induction a as [|c a IH]; simpl.
  - now rewrite string_app_nil_r.
  - now rewrite IH, string_app_assoc.
Qed.

Lemma rev_string_involutive (s : string) : Py.rev_string (Py.rev_string s) = s.
Proof.
  induction s as [|c s IH]; simpl; [reflexivity|].
  rewrite rev_string_app. simpl. now rewrite IH.
Qed.

Lemma rev_string_length (s : string) : String.length (Py.rev_string s) = String.length s.
Proof.
  induction s as [|c s IH]; simpl; [reflexivity|].
  rewrite string_app_length, IH. simpl. lia.
Qed.

Lemma lstrip_length (s : string) : (String.length (Py.lstrip s) <= String.length s)%nat.
Proof. induction s as [|c s IH]; simpl; [lia|]. destruct (Py.is_space c); simpl; lia. Qed.

Lemma lstrip_idem (s : string) : Py.lstrip (Py.lstrip s) = Py.lstrip s.
Proof.
  induction s as [|c s IH]; simpl; [reflexivity|].
  destruct (Py.is_space c) eqn:E; [exact IH|]. simpl. now rewrite E.
Qed.

(** [lstrip] removes a prefix *)
Lemma lstrip_split (s : string) : exists w, s = (w ++ Py.lstrip s)%string.
Proof.
  induction s as [|c s [w IH]]; simpl; [exists EmptyString; reflexivity|].
  destruct (Py.is_space c).
  - exists (String c w). simpl. now rewrite <- IH.
  - exists EmptyString. reflexivity.
Qed.

Lemma lstrip_app_prefix (a b : string) :
  Py.lstrip (a ++ b) = (a ++ b)%string -> Py.lstrip a = a.
Proof.
  destruct a as [|c a]; simpl; [reflexivity|].
  destruct (Py.is_space c) eqn:E; [|reflexivity].
  intro H. exfalso. pose proof (lstrip_length (a ++ b)) as L.
  rewrite H in L. simpl in L. lia.
Qed.

Lemma strip_leading (s : string) : Py.lstrip (Py.strip s) = Py.strip s.
Proof.
  unfold Py.strip.
  destruct (lstrip_split (Py.rev_string (Py.lstrip s))) as [w Hw].
  apply (lstrip_app_prefix _ (Py.rev_string w)).
  rewrite <- rev_string_app, <- Hw, rev_string_involutive. apply lstrip_idem.
Qed.

Lemma strip_trailing (s : string) :
  Py.lstrip (Py.rev_string (Py.strip s)) = Py.rev_string (Py.strip s).
Proof. unfold Py.strip. rewrite rev_string_involutive. apply lstrip_idem. Qed.

Lemma strip_fixed (s : string) :
  Py.lstrip s = s -> Py.lstrip (Py.rev_string s) = Py.rev_string s -> Py.strip s = s.
Proof. intros H1 H2. unfold Py.strip. rewrite H1, H2. apply rev_string_involutive. Qed.

Lemma lstrip_fixed_head (s : string) :
  Py.lstrip s = s -> match s with String c _ => Py.is_space c = false | EmptyString => True end.
Proof.
  destruct s as [|c s]; [trivial|]. simpl. destruct (Py.is_space c); [|trivial].
  intro H. pose proof (lstrip_length s) as L. rewrite H in L. simpl in L. lia.
Qed.

Lemma take_length (n : nat) (s : string) : (String.length (Py.take n s) <= n)%nat.
Proof.
  unfold Py.take. revert s. induction n as [|n IH]; intros [|c s]; simpl; try lia.
  specialize (IH s). lia.
Qed.

Lemma take_short (n : nat) (s : string) : (String.length s <= n)%nat -> Py.take n s = s.
Proof.
  unfold Py.take. revert s. induction n as [|n IH]; intros [|c s] H; simpl in *;
    try reflexivity; try lia.
  rewrite IH by lia. reflexivity.
Qed.

(** ** Character classes of strings *)

Lemma sforallb_app (f : ascii -> bool) (a b : string) :
  Py.sforallb f (a ++ b) = Py.sforallb f a && Py.sforallb f b.
Proof. induction a as [|c a IH]; simpl; [reflexivity|]. now rewrite IH, andb_assoc. Qed.

Lemma sforallb_rev (f : ascii -> bool) (s : string) :
  Py.sforallb f (Py.rev_string s) = Py.sforallb f s.
Proof.
  induction s as [|c s IH]; simpl; [reflexivity|].
  rewrite sforallb_app, IH. simpl. rewrite andb_true_r. apply andb_comm.
Qed.

Lemma sforallb_lstrip (f : ascii -> bool) (s : string) :
  Py.sforallb f s = true -> Py.sforallb f (Py.lstrip s) = true.
Proof.
  induction s as [|c s IH]; simpl; [trivial|].
  intro H. apply andb_true_iff in H as [H1 H2].
  destruct (Py.is_space c); [exact (IH H2)|]. simpl. now rewrite H1, H2.
Qed.

Lemma sforallb_strip (f : ascii -> bool) (s : string) :
  Py.sforallb f s = true -> Py.sforallb f (Py.strip s) = true.
Proof.
  intro H. unfold Py.strip. rewrite sforallb_rev. apply sforallb_lstrip.
  rewrite sforallb_rev. apply sforallb_lstrip. exact H.
Qed.

Lemma sforallb_take (f : ascii -> bool) (n : nat) (s : string) :
  Py.sforallb f s = true -> Py.sforallb f (Py.take n s) = true.
Proof.
  unfold Py.take. revert s. induction n as [|n IH]; intros [|c s] H; simpl in *; trivial.
  apply andb_true_iff in H as [H1 H2]. rewrite H1. simpl. exact (IH s H2).
Qed.

Lemma sfilter_sforallb (f : ascii -> bool) (s : string) :
  Py.sforallb f (Py.sfilter f s) = true.
Proof.
  induction s as [|c s IH]; simpl; [reflexivity|].
  destruct (f c) eqn:E; simpl; [rewrite E|]; assumption.
Qed.

Lemma sforallb_sfilter (f g : ascii -> bool) (s : string) :
  Py.sforallb g s = true -> Py.sforallb g (Py.sfilter f s) = true.
Proof.
  induction s as [|c s IH]; simpl; [trivial|].
  intro H. apply andb_true_iff in H as [H1 H2].
  destruct (f c); simpl; [rewrite H1|]; auto.
Qed.

Lemma sfilter_id (f : ascii -> bool) (s : string) :
  Py.sforallb f s = true -> Py.sfilter f s = s.
Proof.
  induction s as [|c s IH]; simpl; [trivial|].
  intro H. apply andb_true_iff in H as [H1 H2]. rewrite H1, IH; trivial.
Qed.

Lemma sforallb_impl (f g : ascii -> bool) (s : string) :
  (forall c, f c = true -> g c = true) ->
  Py.sforallb f s = true -> Py.sforallb g s = true.
Proof.
  intros Hfg. induction s as [|c s IH]; simpl; [trivial|].
  intro H. apply andb_true_iff in H as [H1 H2]. rewrite (Hfg c H1). simpl. auto.
Qed.

(** ** [_sanitize_description] *)

(** the first filter of [_sanitize_description]: printable, newline or tab *)
Definition printable_or_tab (c : ascii) : bool :=
  Py.is_printable c || (nat_of_ascii c =? 10)%nat || (nat_of_ascii c =? 9)%nat.

(** the string does not start with whitespace *)
Definition no_leading_space (s : string) : Prop :=
  match s with String c _ => Py.is_space c = false | EmptyString => True end.

Lemma printable_not_cr_nul (c : ascii) :
  printable_or_tab c = true ->
  negb ((nat_of_ascii c =? 13)%nat || (nat_of_ascii c =? 0)%nat) = true.
Proof.
  destruct c as [[] [] [] [] [] [] [] []]; vm_compute; intro H;
    first [reflexivity | discriminate H].
Qed.

Lemma sanitize_steps (text : string) :
  text <> EmptyString ->
  exists s3, sanitize_description text = Py.strip (Py.take 200 s3)
             /\ Py.sforallb sanitize_allowed s3 = true
             /\ Py.sforallb printable_or_tab s3 = true.
Proof.
  intro Hne. unfold sanitize_description.
  destruct (String.eqb_spec text EmptyString) as [E|_]; [contradiction|].
  set (s1 := Py.sfilter _ text).
  assert (H1 : Py.sforallb printable_or_tab s1 = true) by apply sfilter_sforallb.
  set (s2 := Py.sfilter _ s1).
  assert (H2 : Py.sforallb printable_or_tab s2 = true) by (apply sforallb_sfilter; exact H1).
  eexists. split; [reflexivity|].
  destruct (negb _ && Py.sforallb sanitize_allowed s2) eqn:E.
  - apply andb_true_iff in E as [_ E]. split; assumption.
  - split; [apply sfilter_sforallb|apply sforallb_sfilter; exact H2].
Qed.

(** a description [_sanitize_description] leaves as it is *)
Definition clean_description (s : string) : Prop :=
  (String.length s <= 200)%nat
  /\ Py.sforallb sanitize_allowed s = true
  /\ Py.sforallb printable_or_tab s = true
  /\ no_leading_space s
  /\ no_leading_space (Py.rev_string s).

Lemma no_leading_space_lstrip (s : string) : no_leading_space s -> Py.lstrip s = s.
Proof. destruct s as [|c s]; simpl; [trivial|]. intros ->. reflexivity. Qed.

Lemma sanitize_clean (text : string) : clean_description (sanitize_description text).
Proof.
  destruct (String.eqb_spec text EmptyString) as [->|Hne].
  - vm_compute. repeat split; lia.
  - destruct (sanitize_steps text Hne) as [s3 [-> [Ha Hp]]].
    repeat split.
    + unfold Py.strip. rewrite rev_string_length.
      eapply Nat.le_trans; [apply lstrip_length|]. rewrite rev_string_length.
      eapply Nat.le_trans; [apply lstrip_length|]. apply take_length.
    + apply sforallb_strip, sforallb_take, Ha.
    + apply sforallb_strip, sforallb_take, Hp.
    + apply lstrip_fixed_head, strip_leading.
    + apply lstrip_fixed_head, strip_trailing.
Qed.

Lemma clean_sanitize_fixed (s : string) :
  clean_description s -> sanitize_description s = s.
Proof.
  intros [Hl [Ha [Hp [H1 H2]]]].
  assert (Hs : Py.strip s = s)
    by (apply strip_fixed; apply no_leading_space_lstrip; assumption).
  unfold sanitize_description.
  destruct (String.eqb_spec s EmptyString) as [Z|Z]; [rewrite Z; reflexivity|].
  rewrite (sfilter_id _ s) by exact Hp.
  rewrite (sfilter_id _ s) by exact (sforallb_impl _ _ s printable_not_cr_nul Hp).
  destruct (String.eqb_spec s EmptyString) as [Z'|_]; [contradiction|].
  rewrite Ha. simpl. rewrite take_short by exact Hl. exact Hs.
Qed.

(** X1: the output of [_sanitize_description] is at most 200 characters
    long, holds only characters of its allowed class that are printable, a
    tab or a newline (so never a carriage return or NUL), and neither starts
    nor ends with whitespace. *)
Theorem sanitize_description_output (text : string) :
  let out := sanitize_description text in
  (String.length out <= 200)%nat
  /\ Py.sforallb sanitize_allowed out = true
  /\ Py.sforallb printable_or_tab out = true
  /\ no_leading_space out
  /\ no_leading_space (Py.rev_string out).
Proof. exact (sanitize_clean text). Qed.

(** X2: [_sanitize_description] leaves a text unchanged exactly when the text
    is at most 200 characters long, holds only allowed characters that are
    printable, a tab or a newline, and neither starts nor ends with
    whitespace. *)
Theorem sanitize_description_fixed_points (text : string) :
  sanitize_description text = text
  <-> (String.length text <= 200)%nat
      /\ Py.sforallb sanitize_allowed text = true
      /\ Py.sforallb printable_or_tab text = true
      /\ no_leading_space text
      /\ no_leading_space (Py.rev_string text).
Proof.
  split.
  - intro E. rewrite <- E. exact (sanitize_clean text).
  - apply clean_sanitize_fixed.
Qed.

(** X3: [_sanitize_description] is idempotent: sanitizing a sanitized
    description changes nothing. *)
Theorem sanitize_description_idempotent (text : string) :
  sanitize_description (sanitize_description text) = sanitize_description text.
Proof. apply clean_sanitize_fixed, sanitize_clean. Qed.

(** ** [_classify_tool_category]: the first category in dict order wins *)

Lemma find_first {A : Type} (f : A -> bool) (l : list A) (x : A) :
  find f l = Some x ->
  exists pre post, l = (pre ++ x :: post)%list /\ f x = true
                   /\ Forall (fun y => f y = false) pre.
Proof.
  induction l as [|y l IH]; simpl; [discriminate|].
  destruct (f y) eqn:E.
  - intro H. injection H as <-. exists [], l.
    split; [reflexivity|split; [exact E|constructor]].
  - intro H. destruct (IH H) as [pre [post [-> [Hx Hpre]]]].
    exists (y :: pre), post. split; [reflexivity|split; [exact Hx|constructor; assumption]].
Qed.

Lemma find_none_forall {A : Type} (f : A -> bool) (l : list A) :
  find f l = None -> Forall (fun y => f y = false) l.
Proof.
  induction l as [|y l IH]; simpl; [constructor|].
  destruct (f y) eqn:E; [discriminate|]. intro H. constructor; auto.
Qed.

(** some keyword of [kws] occurs in the lowered [f"{tool1} {tool2}"] *)
Definition keyword_hit (tool1 tool2 : string) (kws : list string) : bool :=
  existsb (fun kw => Py.contains kw (Py.lower (tool1 ++ " " ++ tool2))) kws.

(** X4: [_classify_tool_category] answers [general] exactly when no keyword
    of any category occurs; otherwise it answers the first category, in
    the order of [SEMANTIC_CATEGORIES], one of whose keywords occurs, and
    no category before it has a keyword that occurs. *)
Theorem classify_first_match (tool1 tool2 : string) :
  (Forall (fun ck => keyword_hit tool1 tool2 (snd ck) = false) SEMANTIC_CATEGORIES
   /\ classify_tool_category tool1 tool2 = "general")
  \/ (exists pre name kws post,
        SEMANTIC_CATEGORIES = (pre ++ (name, kws) :: post)%list
        /\ keyword_hit tool1 tool2 kws = true
        /\ Forall (fun ck => keyword_hit tool1 tool2 (snd ck) = false) pre
        /\ name <> "general"
        /\ classify_tool_category tool1 tool2 = name).
Proof.
  unfold classify_tool_category.
  destruct (find _ SEMANTIC_CATEGORIES) as [[name kws]|] eqn:E.
  - right. destruct (find_first _ _ _ E) as [pre [post [Hl [Hx Hpre]]]].
    exists pre, name, kws, post.
    split; [exact Hl|split; [exact Hx|split; [exact Hpre|split; [|reflexivity]]]].
    assert (Hin : In (name, kws) SEMANTIC_CATEGORIES)
      by (rewrite Hl; apply in_or_app; right; left; reflexivity).
    intros ->. simpl in Hin. intuition discriminate.
  - left. split; [exact (find_none_forall _ _ E)|reflexivity].
Qed.

(** ** The detectors that read the tool history *)


(** X5: [_detect_workflow_patterns] and [_detect_contextual_patterns]
    never yield a pattern and never touch the similarity service or the
    extractor state, whatever the event: the history they read
    ([_get_recent_tools_semantic], [_get_project_tool_usage]) is always
    empty. *)
Theorem history_detectors_inactive {Σ : Type} (R : router Σ) tool args result pp
  (s : @st Σ) :
  detect_workflow_patterns R tool args pp s = (s, Ok [])
  /\ detect_contextual_patterns R tool args result pp s = (s, Ok []).
Proof. split; [apply workflow_inactive|apply contextual_inactive]. Qed.

(** ** The rate limiter's window *)



(** ** What [extract_patterns] returns *)

Section Returned.
Context {Σ : Type} (R : router Σ).

Lemma store_all_returns_stored (P Q : pattern -> Prop) ps acc :
  (forall p i, P p -> i <> EmptyString -> Q (with_pattern_id p i)) ->
  Forall P ps -> Forall Q acc -> returns (Forall Q) (store_all R ps acc).
Proof.
  intro HPQ. revert acc. induction ps as [|p ps IH]; intros acc Hps Hacc; simpl.
  - apply ret_returns. exact Hacc.
  - inversion Hps as [|? ? Hp Hps']; subst.
    apply bind_returns with (P := fun _ => True); [apply true_returns|].
    intros [i|] _; [|apply IH; assumption].
    match goal with |- context [if ?c then _ else _] => destruct c eqn:T end;
      apply IH; try assumption.
    assert (Hi : i <> EmptyString) by (intros ->; simpl in T; discriminate T).
    apply Forall_app. split; [exact Hacc|constructor; [apply HPQ; assumption|constructor]].
Qed.

(** the four extractors feed [store_all]: a property that every candidate of
    every extractor has, and that the stored copies keep, holds of the
    returned patterns *)
Lemma extract_returns_stored (P Q : pattern -> Prop) tool args result pp now :
  (forall p i, P p -> i <> EmptyString -> Q (with_pattern_id p i)) ->
  returns (Forall P) (detect_semantic_corrections R tool args result) ->
  returns (Forall P) (detect_tool_preferences R tool args result) ->
  returns (Forall Q) (extract_patterns R tool args result pp now).
Proof.
  intros HPQ Hc Ht. unfold extract_patterns.
  apply bind_returns with (P := fun _ => True); [apply true_returns|].
  intros [|] _; cbv beta iota delta [negb]; [|apply ret_returns; constructor].
  apply bind_returns with (P := fun _ => True); [apply true_returns|intros ? _].
  apply bind_returns with (P := Forall P); [exact Hc|intros cs Hcs].
  apply bind_returns with (P := fun _ => True); [apply true_returns|intros ? _].
  apply bind_returns with (P := fun l => l = []);
    [intros s0 v E; rewrite workflow_inactive in E; simpl in E; congruence|intros ws ->].
  apply bind_returns with (P := fun _ => True); [apply true_returns|intros ? _].
  apply bind_returns with (P := Forall P); [exact Ht|intros ts Hts].
  apply bind_returns with (P := fun _ => True); [apply true_returns|intros ? _].
  apply bind_returns with (P := fun l => l = []);
    [intros s0 v E; rewrite contextual_inactive in E; simpl in E; congruence|intros xs ->].
  apply store_all_returns_stored with (P := P); [exact HPQ| |constructor].
  rewrite app_nil_l, app_nil_r. apply Forall_app. split; assumption.
Qed.

Lemma tool_words_loop_returns (P : pattern -> Prop) tool command words acc :
  Forall P acc ->
  (forall w, In w words -> Py.contains w (Py.lower command) = true ->
     P (mkPattern "tool_preference" (classify_tool_category w EmptyString)
          ("use " ++ w ++ " for " ++ classify_tool_category w EmptyString)
          ("tool preference: " ++ w ++ " for " ++ classify_tool_category w EmptyString
           ++ " package management")
          (5 # 10)
          [("tool", Py.PStr w); ("command", Py.PStr command);
           ("action", Py.PStr "package_management")]
          tool EmptyString None)) ->
  returns (Forall P) (tool_words_loop R tool command words acc).
Proof.
  revert acc. induction words as [|w words IH]; intros acc Hacc Hw; simpl.
  - apply ret_returns. exact Hacc.
  - destruct (Py.contains w (Py.lower command)) eqn:Hc;
      [|apply IH; [exact Hacc|intros w' Hin; apply Hw; right; exact Hin]].
    apply bind_returns with (P := Forall P).
    + apply keep_if_new_returns; [exact Hacc|apply Hw; [left; reflexivity|exact Hc]].
    + intros acc' Hacc'. apply IH; [exact Hacc'|intros w' Hin; apply Hw; right; exact Hin].
Qed.

End Returned.

(** ** What the storing step of [extract_patterns] returns *)

(** the answers of the memory service to the [store_pattern] requests of
    [ps], made in turn from service state [σ]; [None] when the call raises *)
Fixpoint store_answers {Σ : Type} (R : router Σ) (σ : Σ) (ps : list pattern)
  : Σ * list (option (option string)) :=
  match ps with
  | [] => (σ, [])
  | p :: rest =>
      let (σ1, a) := store_op R σ (store_request p) in
      let (σ2, answers) := store_answers R σ1 rest in
      (σ2, a :: answers)
  end.

(** what a candidate contributes for its answer: its copy carrying the id
    when the answer is a non-empty string, nothing otherwise *)
Definition kept_copy (pa : pattern * option (option string)) : list pattern :=
  match snd pa with
  | Some (Some i) => if Py.truthy (Some i) then [with_pattern_id (fst pa) i] else []
  | _ => []
  end.

Lemma dict_get_filtered_app (md : Py.dict) (k : string) (v : Py.pyval) :
  Py.dict_get ((filter (fun kv => negb (String.eqb (fst kv) k)) md) ++ [(k, v)])%list k
  = Some v.
Proof.
  induction md as [|[k' v'] md IH]; simpl; [now rewrite String.eqb_refl|].
  destruct (String.eqb_spec k' k) as [->|Hne]; simpl; [exact IH|].
  destruct (String.eqb_spec k k') as [->|_]; [congruence|exact IH].
Qed.

Lemma store_all_answers {Σ : Type} (R : router Σ) (ps acc : list pattern) (s : @st Σ) :
  store_all R ps acc s
  = (mkst (fst (store_answers R (svc s) ps))
          (log s ++ map (fun p => CStore (store_request p)) ps)%list (stamps s),
     Ok (acc ++ flat_map kept_copy (combine ps (snd (store_answers R (svc s) ps))))%list).
Proof.
  revert acc s. induction ps as [|p ps IH]; intros acc s; simpl.
  - rewrite !app_nil_r. destruct s. reflexivity.
  - unfold bind, store_pattern_semantically, try_with, router_store.
    destruct (store_op R (svc s) (store_request p)) as [σ a]. simpl.
    destruct (store_answers R σ ps) as [σ2 answers] eqn:Ea.
    assert (Hrest : forall acc' (s' : @st Σ), svc s' = σ ->
              store_all R ps acc' s'
              = (mkst σ2 (log s' ++ map (fun p => CStore (store_request p)) ps)%list (stamps s'),
                 Ok (acc' ++ flat_map kept_copy (combine ps answers))%list)).
    { intros acc' s' Hs. rewrite IH, Hs, Ea. reflexivity. }
    destruct a as [[i|]|]; unfold kept_copy; simpl; [case_if| |];
      rewrite Hrest by reflexivity; simpl; rewrite <- ?app_assoc; reflexivity.
Qed.

(** X7: step 5 of [extract_patterns] sends the candidates to
    [store_pattern] in order, one request each, and returns, in that order,
    exactly the candidates whose request the memory service answered with a
    non-empty id, each the candidate itself with that id stored under
    [pattern_id] in its metadata; a candidate whose store raised, or
    answered [None] or an empty id, is dropped. *)
Theorem stored_patterns_carry_ids {Σ : Type} (R : router Σ) (ps : list pattern)
  (s : @st Σ) :
  let answers := snd (store_answers R (svc s) ps) in
  store_all R ps [] s
  = (mkst (fst (store_answers R (svc s) ps))
          (log s ++ map (fun p => CStore (store_request p)) ps)%list (stamps s),
     Ok (flat_map kept_copy (combine ps answers)))
  /\ length answers = length ps
  /\ (forall p i, exists md,
         with_pattern_id p i
         = mkPattern (pattern_type p) (category p) (description p) (text_content p)
             (confidence p) (context p) (tool_name p) (project_path p) (Some md)
         /\ Py.dict_get md "pattern_id" = Some (Py.PStr i)).
Proof.
  intro answers. split; [|split].
  - rewrite store_all_answers. reflexivity.
  - subst answers. generalize (svc s). induction ps as [|p ps IH]; intro σ; simpl; [reflexivity|].
    destruct (store_op R σ (store_request p)) as [σ1 a].
    specialize (IH σ1). destruct (store_answers R σ1 ps) as [σ2 l]. simpl in *. f_equal. exact IH.
  - intros p i. eexists. split; [reflexivity|]. apply dict_get_filtered_app.
Qed.

(** a correction pattern of confidence 0.8 or a tool preference of
    confidence 0.5 *)
Definition extracted_kind (p : pattern) : Prop :=
  (pattern_type p = "correction" /\ confidence p = 8 # 10)
  \/ (pattern_type p = "tool_preference" /\ confidence p = 5 # 10).

(** X8: [extract_patterns] only ever returns correction patterns of
    confidence 0.8 and tool-preference patterns of confidence 0.5: the
    workflow and contextual patterns are never produced. *)
Theorem extracted_kinds {Σ : Type} (R : router Σ) tool args result pp now :
  returns (Forall extracted_kind) (extract_patterns R tool args result pp now).
Proof.
  apply extract_returns_stored with (P := extracted_kind).
  - intros p i Hp _. exact Hp.
  - apply corrections_loop_returns; [|constructor].
    apply Forall_forall. intros x Hx. unfold correction_candidates in Hx.
    apply in_flat_map in Hx as [ct [_ Hx]]. unfold correction_candidate in Hx.
    destruct (correction_tools _ _ _). destruct (_ || _); simpl in Hx; [|contradiction].
    destruct Hx as [<-|[]]. left. split; reflexivity.
  - unfold detect_tool_preferences. case_if; [|apply ret_returns; constructor].
    destruct (Py.get _ _ _); try apply raise_returns.
    case_if; [|apply ret_returns; constructor].
    apply tool_words_loop_returns; [constructor|].
    intros w _ _. right. split; reflexivity.
Qed.

(** X9: a tool-preference pattern is only produced for a tool whose name
    starts with [Bash] and whose [command] argument is a string mentioning
    install, add, update or upgrade; it names a package manager [w] of the
    list that occurs in the lowered command, reads [use w for c] with [c]
    the category of [w], has confidence 0.5 and the event's tool name.  In
    particular an event without a [command] argument yields none. *)
Theorem tool_preferences_shape {Σ : Type} (R : router Σ) tool args result :
  returns (Forall (fun p => exists command w,
      Py.startswith tool "Bash" = true
      /\ Py.get args "command" (Py.PStr EmptyString) = Py.PStr command
      /\ existsb (fun k => Py.contains k (Py.lower command))
           ["install"; "add"; "update"; "upgrade"] = true
      /\ In w TOOL_WORDS /\ Py.contains w (Py.lower command) = true
      /\ pattern_type p = "tool_preference"
      /\ description p = ("use " ++ w ++ " for " ++ classify_tool_category w EmptyString)
      /\ confidence p = 5 # 10 /\ tool_name p = tool))
    (detect_tool_preferences R tool args result).
Proof.
  unfold detect_tool_preferences.
  destruct (Py.startswith tool "Bash") eqn:Hb; [|apply ret_returns; constructor].
  destruct (Py.get args "command" (Py.PStr EmptyString)) as [command| | | | |] eqn:Hg;
    try apply raise_returns.
  destruct (existsb _ _) eqn:Hk; [|apply ret_returns; constructor].
  apply tool_words_loop_returns; [constructor|].
  intros w Hw Hc. exists command, w. repeat split; assumption.
Qed.

(** ** A non-string command *)

Section NoFailure.
Context {Σ : Type} (R : router Σ).

(** returns normally from every state *)
Definition never_fails {A} (m : @M Σ A) : Prop := forall s e, snd (m s) <> Err e.

Lemma never_fails_ok {A} (m : @M Σ A) (s : @st Σ) :
  never_fails m -> exists a, snd (m s) = Ok a.
Proof.
  intro H. specialize (H s). destruct (snd (m s)) as [a|e]; [exists a; reflexivity|].
  exfalso. exact (H e eq_refl).
Qed.

Lemma try_ret_never_fails {A} (m : @M Σ A) (a : A) :
  never_fails (try_with m (fun _ => ret a)).
Proof. intros s e. unfold try_with. destruct (m s) as [s1 [b|e']]; discriminate. Qed.

Lemma bind_never_fails {A B} (m : @M Σ A) (f : A -> @M Σ B) :
  never_fails m -> (forall a, never_fails (f a)) -> never_fails (bind m f).
Proof.
  intros Hm Hf s e. unfold bind. specialize (Hm s).
  destruct (m s) as [s1 [a|e']]; simpl in *; [apply Hf|intro Heq; injection Heq as <-; exact (Hm e' eq_refl)].
Qed.

Lemma keep_if_new_never_fails (p : pattern) (acc : list pattern) :
  never_fails (keep_if_new R p acc).
Proof.
  unfold keep_if_new. apply bind_never_fails; [apply try_ret_never_fails|].
  intros [] s e; discriminate.
Qed.

Lemma corrections_loop_never_fails cands seen acc :
  never_fails (corrections_loop R cands seen acc).
Proof.
  revert seen acc. induction cands as [|[d p] cands IH]; intros seen acc; simpl.
  - intros s e. discriminate.
  - destruct (existsb _ _); [apply IH|].
    apply bind_never_fails; [apply try_ret_never_fails|]. intros []; apply IH.
Qed.

Lemma bind_err {A B} (m : @M Σ A) (f : A -> @M Σ B) (s : @st Σ) (e : exn) :
  snd (m s) = Err e -> snd (bind m f s) = Err e.
Proof. intro H. unfold bind. destruct (m s) as [s1 r]. simpl in H. subst r. reflexivity. Qed.

End NoFailure.

(** X10: when the rate limiter admits a call for a tool whose name starts
    with [Bash] and whose [command] argument is present but not a string,
    [extract_patterns] raises [AttributeError] (from [command.lower()] in
    the tool-preference step), after the correction and workflow steps have
    run; it does not answer an empty list. *)
Theorem non_string_command_raises {Σ : Type} (R : router Σ) tool args result pp now
  (s : @st Σ) :
  Py.startswith tool "Bash" = true ->
  match Py.get args "command" (Py.PStr EmptyString) with Py.PStr _ => False | _ => True end ->
  snd (check_rate_limit now s) = Ok true ->
  snd (extract_patterns R tool args result pp now s) = Err ExAttribute.
Proof.
  intros Hb Hns Hc. unfold extract_patterns. rewrite (bind_snd _ _ _ _ Hc).
  cbv beta iota delta [negb].
  rewrite bind_snd with (a := tt) by reflexivity.
  match goal with |- snd (bind ?m _ ?s0) = _ =>
    destruct (never_fails_ok m s0 (corrections_loop_never_fails R _ _ _)) as [cs Hcs];
    rewrite (bind_snd _ _ _ _ Hcs) end.
  rewrite bind_snd with (a := tt) by reflexivity.
  rewrite bind_snd with (a := []) by (rewrite workflow_inactive; reflexivity).
  rewrite bind_snd with (a := tt) by reflexivity.
  apply bind_err. unfold detect_tool_preferences. rewrite Hb.
  destruct (Py.get args "command" (Py.PStr EmptyString)); try contradiction; reflexivity.
Qed.

Definition int_command_args : Py.dict := [("command", Py.PInt 3%Z)].

Lemma non_string_command_raises_witness :
  snd (extract_patterns quiet_router "Bash" int_command_args (Py.PStr "ok") EmptyString
         0%Z empty_st) = Err ExAttribute.
Proof.
  apply (non_string_command_raises quiet_router "Bash" int_command_args (Py.PStr "ok")
           EmptyString 0%Z empty_st).
  - reflexivity.
  - simpl. exact I.
  - reflexivity.
Defined.

(** ** Correction patterns of one call have distinct texts *)

(** [f"correction: {description} for {category}"] *)
Definition correction_text (d cat : string) : string :=
  "correction: " ++ d ++ " for " ++ cat.

Lemma string_app_inv_l (a x y : string) : (a ++ x)%string = (a ++ y)%string -> x = y.
Proof. induction a as [|c a IH]; simpl; [trivial|]. intro H. injection H as H. auto. Qed.

Lemma correction_text_inj (d1 d2 c1 c2 : string) :
  In c1 taxonomy -> In c2 taxonomy ->
  correction_text d1 c1 = correction_text d2 c2 -> d1 = d2.
Proof.
  intros H1 H2 E. unfold correction_text in E.
  apply string_app_inv_l in E.
  apply (f_equal Py.rev_string) in E. rewrite !rev_string_app in E.
  rewrite <- (rev_string_involutive d1), <- (rev_string_involutive d2). f_equal.
  simpl in H1, H2.
  repeat destruct H1 as [<-|H1]; try contradiction;
  repeat destruct H2 as [<-|H2]; try contradiction;
  simpl in E; first [congruence | exact (string_app_inv_l _ _ _ E)].
Qed.

Lemma correction_candidates_text tool args result d p :
  In (d, p) (correction_candidates tool args result) ->
  exists cat, In cat taxonomy /\ text_content p = correction_text d cat.
Proof.
  intro Hx. unfold correction_candidates in Hx.
  apply in_flat_map in Hx as [ct [_ Hx]]. unfold correction_candidate in Hx.
  destruct (correction_tools _ _ _). destruct (_ || _); simpl in Hx; [|contradiction].
  destruct Hx as [Hx|[]]. injection Hx as <- <-.
  eexists. split; [apply classify_in_taxonomy|reflexivity].
Qed.

Section DistinctTexts.
Context {Σ : Type} (R : router Σ).

Lemma corrections_loop_distinct cands seen acc :
  (forall d p, In (d, p) cands -> exists cat, In cat taxonomy /\ text_content p = correction_text d cat) ->
  NoDup (map text_content acc) ->
  (forall q, In q acc ->
     exists dq cat, In dq seen /\ In cat taxonomy /\ text_content q = correction_text dq cat) ->
  returns (fun l => NoDup (map text_content l)) (corrections_loop R cands seen acc).
Proof.
  revert seen acc. induction cands as [|[d p] cands IH]; intros seen acc Hc Hnd Hacc; simpl.
  - apply ret_returns. exact Hnd.
  - assert (Hc' : forall d' p', In (d', p') cands ->
                   exists cat, In cat taxonomy /\ text_content p' = correction_text d' cat)
      by (intros d' p' Hin; apply Hc; right; exact Hin).
    destruct (existsb (String.eqb d) seen) eqn:Hs; [apply IH; assumption|].
    apply bind_returns with (P := fun _ => True); [apply true_returns|].
    intros [] _; [apply IH; assumption|].
    destruct (Hc d p (or_introl eq_refl)) as [cp [Hcp Hp]].
    apply IH; [exact Hc'| |].
    + rewrite map_app. simpl.
      apply (Permutation_NoDup (Permutation_cons_append _ _)). constructor; [|exact Hnd].
      intro Hin. apply in_map_iff in Hin as [q [Hq Hin]].
      destruct (Hacc q Hin) as [dq [cq [Hdq [Hcq Hqt]]]].
      rewrite Hqt, Hp in Hq.
      assert (d = dq) by (symmetry; exact (correction_text_inj dq d cq cp Hcq Hcp Hq)).
      subst dq.
      assert (existsb (String.eqb d) seen = true)
        by (apply existsb_exists; exists d; split; [exact Hdq|apply String.eqb_refl]).
      congruence.
    + intros q Hin. apply in_app_or in Hin as [Hin|[<-|[]]].
      * destruct (Hacc q Hin) as [dq [cq [Hdq [Hcq Hqt]]]].
        exists dq, cq. split; [right; exact Hdq|split; assumption].
      * exists d, cp. split; [left; reflexivity|split; assumption].
Qed.

End DistinctTexts.

(** X11: the correction patterns [_detect_semantic_corrections] returns have
    pairwise distinct texts: a description already kept in
    [seen_descriptions] is never kept again, and the text
    [correction: <description> for <category>] determines the description. *)
Theorem correction_texts_distinct {Σ : Type} (R : router Σ) tool args result :
  returns (fun l => NoDup (map text_content l))
    (detect_semantic_corrections R tool args result).
Proof.
  apply corrections_loop_distinct.
  - apply correction_candidates_text.
  - constructor.
  - intros q [].
Qed.

(** ** Sequences of captures on one [HookCaptureSystemV2] *)

(** the state set up by [HookCaptureSystemV2.__init__(force_v1=...)] *)
Definition hook_init (force : bool) : hook_state := mkHook false false force.

(** what the environment supplies to one [capture_tool_execution] call *)
Record capture_env (pat : Type) : Type := mkCaptureEnv {
  env_audit_ok : bool;
  env_health_ok : bool;
  env_v2_run : option (list pat);
  env_v1_run : list pat;
  env_significance : Q }.
Arguments mkCaptureEnv {pat} _ _ _ _ _.
Arguments env_audit_ok {pat} _.
Arguments env_health_ok {pat} _.
Arguments env_v2_run {pat} _.
Arguments env_v1_run {pat} _.
Arguments env_significance {pat} _.

Definition capture_in {pat : Type} (e : capture_env pat) (h : hook_state)
  : hook_state * list action * option outcome :=
  capture_tool_execution (env_audit_ok e) (env_health_ok e) (env_v2_run e) (env_v1_run e)
    h (env_significance e).

(** successive [capture_tool_execution] calls on one object; a call whose
    [_store_execution] raises leaves the object as it was *)
Fixpoint run_captures {pat : Type} (h : hook_state) (envs : list (capture_env pat))
  : hook_state * list action * list (option outcome) :=
  match envs with
  | [] => (h, [], [])
  | e :: rest =>
      let '(h1, a1, o1) := capture_in e h in
      let '(h2, a2, os) := run_captures h1 rest in
      (h2, (a1 ++ a2)%list, o1 :: os)
  end.

Definition health_checks (acts : list action) : nat :=
  length (filter (fun a => match a with AHealthCheck => true | _ => false end) acts).

(** no V2 extraction, or the first one comes after a health check *)
Definition v2_after_check (acts : list action) : Prop :=
  ~ In AExtractV2 acts
  \/ exists pre post, acts = (pre ++ AHealthCheck :: post)%list /\ ~ In AExtractV2 pre.

(** the outcome reports the V1 system, if it reports a system *)
Definition reports_v1 (o : option outcome) : Prop :=
  match o with Some (Captured _ _ v) => v = "v1" | _ => True end.

Lemma health_checks_none (acts : list action) :
  ~ In AHealthCheck acts -> health_checks acts = 0%nat.
Proof.
  unfold health_checks. induction acts as [|a acts IH]; simpl; [reflexivity|].
  intro H. destruct a; try (apply IH; tauto). exfalso. apply H. left. reflexivity.
Qed.

Lemma health_checks_app (a b : list action) :
  health_checks (a ++ b) = (health_checks a + health_checks b)%nat.
Proof. unfold health_checks. rewrite filter_app, length_app. reflexivity. Qed.

Ltac capture_cases :=
  unfold capture_in, capture_tool_execution, initialize_v2_system; simpl;
  repeat (case_if || match goal with
                     | |- context [match ?o with Some _ => _ | None => _ end] => destruct o
                     end); simpl.

Section CaptureSteps.
Context {pat : Type}.

Lemma step_attempted (e : capture_env pat) (h : hook_state) :
  v2_init_attempted h = true ->
  fst (fst (capture_in e h)) = h /\ ~ In AHealthCheck (snd (fst (capture_in e h))).
Proof.
  destruct h as [av at_ fv]. simpl. intros ->. destruct av, fv; capture_cases;
    split; try reflexivity; intuition discriminate.
Qed.

Lemma step_dead (e : capture_env pat) (h : hook_state) :
  v2_available h = false -> v2_init_attempted h = true ->
  ~ In AExtractV2 (snd (fst (capture_in e h))).
Proof.
  destruct h as [av at_ fv]. simpl. intros -> ->. destruct fv; capture_cases;
    intuition discriminate.
Qed.

Lemma step_fresh (e : capture_env pat) (h : hook_state) :
  v2_available h = false -> v2_init_attempted h = false ->
  (fst (fst (capture_in e h)) = h
   /\ ~ In AHealthCheck (snd (fst (capture_in e h)))
   /\ ~ In AExtractV2 (snd (fst (capture_in e h))))
  \/ (v2_init_attempted (fst (fst (capture_in e h))) = true
      /\ exists tail, snd (fst (capture_in e h)) = AAuditWrite :: AHealthCheck :: tail
                      /\ ~ In AHealthCheck tail).
Proof.
  destruct h as [av at_ fv]. simpl. intros -> ->. destruct fv; capture_cases;
    first [ left; split; [reflexivity|split; intuition discriminate]
          | right; split; [reflexivity|eexists; split; [reflexivity|simpl; intuition discriminate]] ].
Qed.

Lemma step_forced (e : capture_env pat) (h : hook_state) :
  force_v1 h = true -> v2_available h = false ->
  fst (fst (capture_in e h)) = h
  /\ ~ In AHealthCheck (snd (fst (capture_in e h)))
  /\ ~ In AExtractV2 (snd (fst (capture_in e h)))
  /\ reports_v1 (snd (capture_in e h)).
Proof.
  destruct h as [av at_ fv]. simpl. intros -> ->. destruct at_; capture_cases;
    split; try reflexivity; (split; [|split]); simpl; intuition discriminate.
Qed.

Lemma run_cons (h : hook_state) (e : capture_env pat) (rest : list (capture_env pat)) :
  let c := capture_in e h in
  let r := run_captures (fst (fst c)) rest in
  run_captures h (e :: rest)
  = (fst (fst r), (snd (fst c) ++ snd (fst r))%list, snd c :: snd r).
Proof.
  cbn [run_captures]. destruct (capture_in e h) as [[h1 a1] o1]. cbn [fst snd].
  destruct (run_captures h1 rest) as [[h2 a2] os]. reflexivity.
Qed.

Lemma run_attempted (h : hook_state) (envs : list (capture_env pat)) :
  v2_init_attempted h = true ->
  fst (fst (run_captures h envs)) = h /\ ~ In AHealthCheck (snd (fst (run_captures h envs))).
Proof.
  intro Ha. induction envs as [|e rest IH]; [simpl; tauto|].
  rewrite run_cons. simpl.
  destruct (step_attempted e h Ha) as [E N]. rewrite E.
  destruct IH as [IH1 IH2]. split; [exact IH1|].
  intro Hin. apply in_app_or in Hin as [Hin|Hin]; contradiction.
Qed.

Lemma run_dead (h : hook_state) (envs : list (capture_env pat)) :
  v2_available h = false -> v2_init_attempted h = true ->
  ~ In AExtractV2 (snd (fst (run_captures h envs))).
Proof.
  intros Hv Ha. induction envs as [|e rest IH]; [simpl; tauto|].
  rewrite run_cons. simpl. rewrite (proj1 (step_attempted e h Ha)).
  intro Hin. apply in_app_or in Hin as [Hin|Hin]; [exact (step_dead e h Hv Ha Hin)|exact (IH Hin)].
Qed.

Lemma run_fresh (h : hook_state) (envs : list (capture_env pat)) :
  v2_available h = false -> v2_init_attempted h = false ->
  (health_checks (snd (fst (run_captures h envs))) <= 1)%nat
  /\ v2_after_check (snd (fst (run_captures h envs))).
Proof.
  intros Hv Ha. induction envs as [|e rest IH].
  - simpl. split; [unfold health_checks; simpl; lia|left; tauto].
  - rewrite run_cons. simpl.
    destruct (step_fresh e h Hv Ha) as [[E [N1 N2]]|[Ha1 [tail [Ea Nt]]]].
    + rewrite E. destruct IH as [IH1 IH2].
      rewrite health_checks_app, (health_checks_none _ N1). split; [exact IH1|].
      destruct IH2 as [N|[pre [post [Ep Np]]]].
      * left. intro Hin. apply in_app_or in Hin as [Hin|Hin]; contradiction.
      * right. exists (snd (fst (capture_in e h)) ++ pre)%list, post.
        split; [rewrite Ep, app_assoc; reflexivity|].
        intro Hin. apply in_app_or in Hin as [Hin|Hin]; contradiction.
    + rewrite Ea. split.
      * change (AAuditWrite :: AHealthCheck :: tail)%list
          with ([AAuditWrite; AHealthCheck] ++ tail)%list.
        rewrite <- app_assoc, !health_checks_app, (health_checks_none _ Nt),
          (health_checks_none _ (proj2 (run_attempted _ rest Ha1))).
        reflexivity.
      * right. exists [AAuditWrite], (tail ++ snd (fst (run_captures (fst (fst (capture_in e h))) rest)))%list.
        split; [reflexivity|]. simpl. intuition discriminate.
Qed.

Lemma run_forced (h : hook_state) (envs : list (capture_env pat)) :
  force_v1 h = true -> v2_available h = false ->
  ~ In AHealthCheck (snd (fst (run_captures h envs)))
  /\ ~ In AExtractV2 (snd (fst (run_captures h envs)))
  /\ Forall reports_v1 (snd (run_captures h envs)).
Proof.
  intros Hf Hv. induction envs as [|e rest IH]; [simpl; repeat split; auto|].
  rewrite run_cons. simpl.
  destruct (step_forced e h Hf Hv) as [E [N1 [N2 O]]]. rewrite E.
  destruct IH as [IH1 [IH2 IH3]]. split; [|split].
  - intro Hin. apply in_app_or in Hin as [Hin|Hin]; contradiction.
  - intro Hin. apply in_app_or in Hin as [Hin|Hin]; contradiction.
  - constructor; assumption.
Qed.

End CaptureSteps.

(** X12: over any sequence of [capture_tool_execution] calls on one
    [HookCaptureSystemV2] object, the AgentDB health check is made at most
    once, and no V2 extraction happens before it. *)
Theorem captures_single_health_check {pat : Type} (force : bool)
  (envs : list (capture_env pat)) :
  let acts := snd (fst (run_captures (hook_init force) envs)) in
  (health_checks acts <= 1)%nat /\ v2_after_check acts.
Proof. apply run_fresh; reflexivity. Qed.

(** X13: an object created with [force_v1=True] never makes the health check,
    never runs the V2 extractor, and every execution it captures is
    reported with system version [v1]. *)
Theorem forced_v1_captures {pat : Type} (envs : list (capture_env pat)) :
  ~ In AHealthCheck (snd (fst (run_captures (hook_init true) envs)))
  /\ ~ In AExtractV2 (snd (fst (run_captures (hook_init true) envs)))
  /\ Forall reports_v1 (snd (run_captures (hook_init true) envs)).
Proof. apply run_forced; reflexivity. Qed.

(** X14: once the V2 initialisation has been attempted, the object's state
    never changes again: whether V2 is used is fixed by that one attempt,
    and a failing V2 extraction does not switch V2 off. *)
Theorem attempted_state_fixed {pat : Type} (h : hook_state) (envs : list (capture_env pat)) :
  v2_init_attempted h = true -> fst (fst (run_captures h envs)) = h.
Proof. intro Ha. apply (run_attempted h envs Ha). Qed.

Lemma attempted_state_fixed_witness :
  fst (fst (run_captures (mkHook true true false)
              [mkCaptureEnv (pat := unit) true true None [tt] (9 # 10)])) = mkHook true true false.
Proof. apply attempted_state_fixed. reflexivity. Defined.

(** ** The patterns of one extraction pass have distinct texts *)

(** [f"tool preference: {tool} for {category} package management"] *)
Definition tool_pref_text (w : string) : string :=
  "tool preference: " ++ w ++ " for " ++ classify_tool_category w EmptyString
  ++ " package management".

Lemma tool_pref_text_inj (w1 w2 : string) :
  In w1 TOOL_WORDS -> In w2 TOOL_WORDS -> tool_pref_text w1 = tool_pref_text w2 -> w1 = w2.
Proof.
  intros H1 H2 E.
  assert (B : String.eqb (tool_pref_text w1) (tool_pref_text w2) = true)
    by (rewrite E; apply String.eqb_refl).
  simpl in H1, H2.
  repeat destruct H1 as [<-|H1]; try contradiction;
  repeat destruct H2 as [<-|H2]; try contradiction;
  first [reflexivity | vm_compute in B; discriminate B].
Qed.

Lemma correction_tool_pref_text (d c w : string) : correction_text d c <> tool_pref_text w.
Proof. unfold correction_text, tool_pref_text. simpl. discriminate. Qed.

Lemma NoDup_snoc {A : Type} (l : list A) (x : A) :
  NoDup l -> ~ In x l -> NoDup (l ++ [x])%list.
Proof.
  intros H N. apply (Permutation_NoDup (Permutation_cons_append _ _)). constructor; assumption.
Qed.

Lemma TOOL_WORDS_NoDup : NoDup TOOL_WORDS.
Proof. unfold TOOL_WORDS. repeat constructor; simpl; intuition discriminate. Qed.

Section DistinctPass.
Context {Σ : Type} (R : router Σ).

Lemma returns_and {A} (P Q : A -> Prop) (m : @M Σ A) :
  returns P m -> returns Q m -> returns (fun a => P a /\ Q a) m.
Proof. intros HP HQ s a E. split; [exact (HP s a E)|exact (HQ s a E)]. Qed.

Lemma keep_if_new_cases (p : pattern) (acc : list pattern) :
  returns (fun l => l = acc \/ l = (acc ++ [p])%list) (keep_if_new R p acc).
Proof.
  unfold keep_if_new. apply bind_returns with (P := fun _ => True); [apply true_returns|].
  intros [] _; apply ret_returns; auto.
Qed.

Lemma tool_words_loop_distinct tool command words acc :
  NoDup words -> incl words TOOL_WORDS ->
  NoDup (map text_content acc) ->
  (forall q, In q acc -> exists w, In w TOOL_WORDS /\ ~ In w words
                                   /\ text_content q = tool_pref_text w) ->
  returns (fun l => NoDup (map text_content l)
                    /\ forall q, In q l -> exists w, In w TOOL_WORDS
                                                 /\ text_content q = tool_pref_text w)
    (tool_words_loop R tool command words acc).
Proof.
  revert acc. induction words as [|w words IH]; intros acc Hnd Hincl Hacc Hq; simpl.
  - apply ret_returns. split; [exact Hacc|].
    intros q Hin. destruct (Hq q Hin) as [w [Hw [_ Ht]]]. exists w. split; assumption.
  - inversion Hnd as [|? ? Hw Hnd']; subst.
    assert (Hincl' : incl words TOOL_WORDS) by (intros x Hx; apply Hincl; right; exact Hx).
    assert (HwT : In w TOOL_WORDS) by (apply Hincl; left; reflexivity).
    assert (Hq' : forall q, In q acc ->
                  exists w', In w' TOOL_WORDS /\ ~ In w' words /\ text_content q = tool_pref_text w')
      by (intros q Hin; destruct (Hq q Hin) as [w' [H1 [H2 H3]]];
          exists w'; split; [exact H1|split; [intro; apply H2; right; assumption|exact H3]]).
    case_if; [|apply IH; assumption].
    eapply bind_returns; [apply keep_if_new_cases|].
    intros acc' [ -> | -> ]; [apply IH; assumption|].
    apply IH; [exact Hnd'|exact Hincl'| |].
    + rewrite map_app. apply NoDup_snoc; [exact Hacc|].
      intro Hin. apply in_map_iff in Hin as [q [Ht Hin]].
      destruct (Hq q Hin) as [w' [Hw'T [Hw' Hqt]]].
      rewrite Hqt in Ht.
      apply Hw'. left. symmetry. exact (tool_pref_text_inj w' w Hw'T HwT Ht).
    + intros q Hin. apply in_app_or in Hin as [Hin|[<-|[]]]; [exact (Hq' q Hin)|].
      exists w. split; [exact HwT|split; [exact Hw|reflexivity]].
Qed.

Lemma store_all_distinct ps acc :
  NoDup (map text_content (acc ++ ps)) ->
  returns (fun l => NoDup (map text_content l)) (store_all R ps acc).
Proof.
  revert acc. induction ps as [|p ps IH]; intros acc Hnd; simpl.
  - apply ret_returns. rewrite app_nil_r in Hnd. exact Hnd.
  - apply bind_returns with (P := fun _ => True); [apply true_returns|].
    assert (Hdrop : NoDup (map text_content (acc ++ ps))).
    { rewrite map_app in Hnd |- *. simpl in Hnd. exact (NoDup_remove_1 _ _ _ Hnd). }
    intros [i|] _; [case_if|]; apply IH; try exact Hdrop.
    rewrite <- app_assoc, map_app. rewrite map_app in Hnd. exact Hnd.
Qed.

End DistinctPass.

(** X15: an extraction pass never returns two patterns with the same text:
    the correction patterns are kept once per description, the
    tool-preference patterns once per package manager, the two kinds of
    text differ in their prefix, and storing only drops patterns. *)
Theorem extracted_texts_distinct {Σ : Type} (R : router Σ) tool args result pp now :
  returns (fun l => NoDup (map text_content l)) (extract_patterns R tool args result pp now).
Proof.
  unfold extract_patterns.
  apply bind_returns with (P := fun _ => True); [apply true_returns|].
  intros [|] _; cbv beta iota delta [negb]; [|apply ret_returns; constructor].
  apply bind_returns with (P := fun _ => True); [apply true_returns|intros ? _].
  apply bind_returns with
    (P := fun cs => NoDup (map text_content cs)
                    /\ Forall (fun q => exists d c, text_content q = correction_text d c) cs).
  { apply returns_and.
    - apply corrections_loop_distinct; [apply correction_candidates_text|constructor|intros q []].
    - apply corrections_loop_returns; [|constructor].
      apply Forall_forall. intros [d p] Hin. simpl.
      destruct (correction_candidates_text _ _ _ d p Hin) as [c [_ Hc]]. exists d, c. exact Hc. }
  intros cs [Hcs Fcs].
  apply bind_returns with (P := fun _ => True); [apply true_returns|intros ? _].
  apply bind_returns with (P := fun l => l = []);
    [intros s0 v E; rewrite workflow_inactive in E; simpl in E; congruence|intros ws ->].
  apply bind_returns with (P := fun _ => True); [apply true_returns|intros ? _].
  apply bind_returns with
    (P := fun l => NoDup (map text_content l)
                   /\ forall q, In q l -> exists w, In w TOOL_WORDS
                                                /\ text_content q = tool_pref_text w).
  { unfold detect_tool_preferences. case_if; [|apply ret_returns; split; [constructor|intros q []]].
    destruct (Py.get _ _ _); try apply raise_returns.
    case_if; [|apply ret_returns; split; [constructor|intros q []]].
    apply tool_words_loop_distinct;
      [exact TOOL_WORDS_NoDup|intros x Hx; exact Hx|constructor|intros q []]. }
  intros ts [Hts Fts].
  apply bind_returns with (P := fun _ => True); [apply true_returns|intros ? _].
  apply bind_returns with (P := fun l => l = []);
    [intros s0 v E; rewrite contextual_inactive in E; simpl in E; congruence|intros xs ->].
  apply store_all_distinct. simpl. rewrite app_nil_r, !map_app.
  apply NoDup_app; [exact Hcs|exact Hts|].
  intros t Hc Ht.
  apply in_map_iff in Hc as [q [<- Hq]]. apply in_map_iff in Ht as [q' [Eq Hq']].
  rewrite Forall_forall in Fcs. destruct (Fcs q Hq) as [d [c Hdc]].
  destruct (Fts q' Hq') as [w [_ Hw]].
  apply (correction_tool_pref_text d c w). rewrite <- Hdc, <- Hw. symmetry. exact Eq.
Qed.
